(** * urbanplace: session store and request pipeline of the web client

    The development embeds the session hook [useAuth] (lib/auth), the axios
    instance [api] with its two interceptors (lib/api.ts), the profile
    creation call [workers.createProfile] and the guards of the protected
    pages, and states the session contract over them.  A further part
    covers the pages built on these: the dashboard and its bookings, search
    and booking, sign-in and registration, and the assistant.

    Browser facilities the code calls but does not define ([localStorage],
    [JSON], [Number::toString], axios' [settle]) are modelled in the first
    part, following ECMA-262 / ECMA-404 and the axios defaults. *)

From Stdlib Require Import ZArith NArith String Ascii List Bool Lia Eqdep_dec.
From Stdlib Require Import DecimalString DecimalN.
From stdpp Require Import base option gmap strings list fin_maps.

Local Open Scope string_scope.
Local Open Scope Z_scope.

(** ** Completions: a value, or a thrown exception *)

Inductive Exn : Type :=
  | SyntaxError (msg : string).

Inductive completion (A : Type) : Type :=
  | Normal (a : A)
  | Throw (e : Exn).
Arguments Normal {A} a.
Arguments Throw {A} e.

Definition cbind {A B} (c : completion A) (k : A -> completion B) : completion B :=
  match c with
  | Normal a => k a
  | Throw e => Throw e
  end.

(** [try { body } catch { handler }] *)
Definition try_catch {A} (body : completion A) (handler : Exn -> completion A)
  : completion A :=
  match body with
  | Normal a => Normal a
  | Throw e => handler e
  end.

#[global] Instance completion_ret : MRet completion := @Normal.
#[global] Instance completion_bind : MBind completion :=
  fun A B k c => cbind c k.

(** ** Characters *)

Definition dquote : ascii := "034".

Definition is_digit (c : ascii) : bool :=
  let n := nat_of_ascii c in (48 <=? n)%nat && (n <=? 57)%nat.

Definition is_zero_char (c : ascii) : bool := Ascii.eqb c "0".

Fixpoint all_digits (s : string) : bool :=
  match s with
  | EmptyString => true
  | String c r => is_digit c && all_digits r
  end.

(** Longest prefix of decimal digits, and what follows it. *)
Fixpoint span_digits (s : string) : string * string :=
  match s with
  | String c r =>
      if is_digit c then let (d, t) := span_digits r in (String c d, t)
      else (EmptyString, s)
  | EmptyString => (EmptyString, EmptyString)
  end.

Fixpoint zeros (n : nat) : string :=
  match n with
  | O => EmptyString
  | S k => String "0" (zeros k)
  end.

Fixpoint take (n : nat) (s : string) : string :=
  match n, s with
  | S k, String c r => String c (take k r)
  | _, _ => EmptyString
  end.

Fixpoint drop (n : nat) (s : string) : string :=
  match n, s with
  | S k, String _ r => drop k r
  | _, _ => s
  end.

Definition last_char (s : string) : option ascii :=
  match String.length s with
  | O => None
  | S k => String.get k s
  end.

(** Leading zeros are dropped; the count of dropped characters is returned. *)
Fixpoint strip_leading_zeros (s : string) : nat * string :=
  match s with
  | String c r =>
      if is_zero_char c then let (k, t) := strip_leading_zeros r in (S k, t)
      else (O, s)
  | EmptyString => (O, EmptyString)
  end.

Fixpoint strip_trailing_zeros (s : string) : string :=
  match s with
  | String c r =>
      match strip_trailing_zeros r with
      | EmptyString => if is_zero_char c then EmptyString else String c EmptyString
      | t => String c t
      end
  | EmptyString => EmptyString
  end.

(** ** Numbers

    A JavaScript number that JSON can carry is finite; it is kept in the
    form ECMA-262 uses to print it (Number::toString): a sign, the digits
    [s] of the significand (first and last digit not zero) and the position
    [n] of the decimal point, the value being [0.s * 10^n].  Zero has no
    digits, and negative zero is not told from it.  Rounding of longer
    literals to IEEE doubles is not modelled. *)

Definition canonical (neg : bool) (digits : string) (point : Z) : bool :=
  match digits with
  | EmptyString => negb neg && (point =? 0)
  | String c _ =>
      all_digits digits && negb (is_zero_char c) &&
      match last_char digits with
      | Some l => negb (is_zero_char l)
      | None => false
      end
  end.

Record number : Type := mkNumber {
  num_neg : bool;
  num_digits : string;
  num_point : Z;
  num_ok : canonical num_neg num_digits num_point = true
}.

Definition number_zero : number := mkNumber false EmptyString 0 eq_refl.

(** Smart constructor: normalises, so that every digit string is accepted. *)
Definition make_number (neg : bool) (raw : string) (point : Z) : number :=
  let (k, t) := strip_leading_zeros raw in
  let d := strip_trailing_zeros t in
  let n := match d with EmptyString => false | _ => neg end in
  let p := match d with EmptyString => 0 | _ => point - Z.of_nat k end in
  match bool_dec (canonical n d p) true with
  | left H => mkNumber n d p H
  | right _ => number_zero
  end.

Definition decimal_of_N (n : N) : string := NilZero.string_of_uint (N.to_uint n).

Definition N_of_decimal (s : string) : option N :=
  match NilZero.uint_of_string s with
  | Some d => Some (N.of_uint d)
  | None => None
  end.

(** An integer as a number. *)
Definition number_of_Z (z : Z) : number :=
  let s := decimal_of_N (Z.abs_N z) in
  make_number (z <? 0) s (Z.of_nat (String.length s)).

(** Number::toString (radix 10), ECMA-262 6.1.6.1.20. *)
Definition number_to_string (x : number) : string :=
  match num_digits x with
  | EmptyString => "0"
  | String c rest =>
      let s := num_digits x in
      let k := Z.of_nat (String.length s) in
      let n := num_point x in
      let body :=
        if (k <=? n) && (n <=? 21) then s +:+ zeros (Z.to_nat (n - k))
        else if (0 <? n) && (n <=? 21) then
          take (Z.to_nat n) s +:+ "." +:+ drop (Z.to_nat n) s
        else if (-6 <? n) && (n <=? 0) then "0." +:+ zeros (Z.to_nat (- n)) +:+ s
        else
          let e := n - 1 in
          let sgn := if e <? 0 then "-" else "+" in
          let m := match rest with
                   | EmptyString => String c EmptyString
                   | _ => String c ("." +:+ rest)
                   end in
          m +:+ "e" +:+ sgn +:+ decimal_of_N (Z.abs_N e)
      in
      if num_neg x then "-" +:+ body else body
  end.

(** ** JSON values (ECMA-404) and the operations the code applies to them *)

#[local] Set Warnings "-register-all".
Inductive json : Type :=
  | JNull
  | JBool (b : bool)
  | JNum (n : number)
  | JStr (s : string)
  | JArr (l : list json)
  | JObj (m : list (string * json)).

(** ToBoolean: what [if (v)] and [!v] test. *)
Definition truthy (v : json) : bool :=
  match v with
  | JNull => false
  | JBool b => b
  | JNum n => match num_digits n with EmptyString => false | _ => true end
  | JStr s => match s with EmptyString => false | _ => true end
  | JArr _ | JObj _ => true
  end.

Fixpoint assoc (k : string) (m : list (string * json)) : option json :=
  match m with
  | [] => None
  | (k', v) :: r => if String.eqb k k' then Some v else assoc k r
  end.

(** Property read [v.k] on a truthy value; [None] is [undefined]. *)
Definition prop (v : json) (k : string) : option json :=
  match v with
  | JObj m => assoc k m
  | _ => None
  end.

(** Defining a property: a key already there keeps its place. *)
Fixpoint obj_set (k : string) (v : json) (m : list (string * json))
  : list (string * json) :=
  match m with
  | [] => [(k, v)]
  | (k', v') :: r =>
      if String.eqb k k' then (k, v) :: r else (k', v') :: obj_set k v r
  end.

(** *** JSON.stringify *)

Definition hex_digit (n : nat) : ascii :=
  match n with
  | 0 => "0" | 1 => "1" | 2 => "2" | 3 => "3" | 4 => "4" | 5 => "5"
  | 6 => "6" | 7 => "7" | 8 => "8" | 9 => "9" | 10 => "a" | 11 => "b"
  | 12 => "c" | 13 => "d" | 14 => "e" | _ => "f"
  end%nat%char.

(** QuoteJSONString, one character. *)
Definition escape_char (c : ascii) : string :=
  let n := nat_of_ascii c in
  if Ascii.eqb c dquote then String "\" (String dquote EmptyString)
  else if Ascii.eqb c "\" then "\\"
  else if (n =? 8)%nat then "\b"
  else if (n =? 12)%nat then "\f"
  else if (n =? 10)%nat then "\n"
  else if (n =? 13)%nat then "\r"
  else if (n =? 9)%nat then "\t"
  else if (n <? 32)%nat then
    "\u00" +:+ String (hex_digit (n / 16)) (String (hex_digit (n mod 16)) EmptyString)
  else String c EmptyString.

Fixpoint escape_string (s : string) : string :=
  match s with
  | EmptyString => EmptyString
  | String c r => escape_char c +:+ escape_string r
  end.

Definition quote (s : string) : string :=
  String dquote (escape_string s +:+ String dquote EmptyString).

(** [parts.join(",")] *)
Fixpoint join (parts : list string) : string :=
  match parts with
  | [] => EmptyString
  | [x] => x
  | x :: r => x +:+ "," +:+ join r
  end.

Fixpoint JSON_stringify (v : json) : string :=
  match v with
  | JNull => "null"
  | JBool true => "true"
  | JBool false => "false"
  | JNum n => number_to_string n
  | JStr s => quote s
  | JArr l => "[" +:+ join (List.map JSON_stringify l) +:+ "]"
  | JObj m =>
      "{" +:+
      join (List.map (fun kv => quote (fst kv) +:+ ":" +:+ JSON_stringify (snd kv)) m)
      +:+ "}"
  end.

(** *** JSON.parse *)

Definition is_ws (c : ascii) : bool :=
  let n := nat_of_ascii c in
  (n =? 32)%nat || (n =? 9)%nat || (n =? 10)%nat || (n =? 13)%nat.

Fixpoint skip_ws (s : string) : string :=
  match s with
  | String c r => if is_ws c then skip_ws r else s
  | EmptyString => EmptyString
  end.

Definition hex_value (c : ascii) : option nat :=
  let n := nat_of_ascii c in
  if (48 <=? n)%nat && (n <=? 57)%nat then Some (n - 48)%nat
  else if (65 <=? n)%nat && (n <=? 70)%nat then Some (n - 55)%nat
  else if (97 <=? n)%nat && (n <=? 102)%nat then Some (n - 87)%nat
  else None.

Definition hex4 (a b c d : ascii) : option nat :=
  x ← hex_value a; y ← hex_value b; z ← hex_value c; w ← hex_value d;
  Some (((x * 16 + y) * 16 + z) * 16 + w)%nat.

(** A code unit as the bytes that carry it (UTF-8 form). *)
Definition code_unit_bytes (u : nat) : string :=
  if (u <? 128)%nat then String (ascii_of_nat u) EmptyString
  else if (u <? 2048)%nat then
    String (ascii_of_nat (192 + u / 64)) (String (ascii_of_nat (128 + u mod 64)) EmptyString)
  else
    String (ascii_of_nat (224 + u / 4096))
      (String (ascii_of_nat (128 + (u / 64) mod 64))
         (String (ascii_of_nat (128 + u mod 64)) EmptyString)).

Definition unescape (e : ascii) : option ascii :=
  if Ascii.eqb e dquote then Some dquote
  else if Ascii.eqb e "\" then Some "\"%char
  else if Ascii.eqb e "/" then Some "/"%char
  else if Ascii.eqb e "b" then Some (ascii_of_nat 8)
  else if Ascii.eqb e "f" then Some (ascii_of_nat 12)
  else if Ascii.eqb e "n" then Some (ascii_of_nat 10)
  else if Ascii.eqb e "r" then Some (ascii_of_nat 13)
  else if Ascii.eqb e "t" then Some (ascii_of_nat 9)
  else None.

(** The characters of a string literal after its opening quote. *)
Fixpoint parse_string_body (s : string) : option (string * string) :=
  match s with
  | EmptyString => None
  | String c r =>
      if Ascii.eqb c dquote then Some (EmptyString, r)
      else if Ascii.eqb c "\" then
        match r with
        | String "u" (String h1 (String h2 (String h3 (String h4 r')))) =>
            u ← hex4 h1 h2 h3 h4;
            '(t, rest) ← parse_string_body r';
            Some (code_unit_bytes u +:+ t, rest)
        | String e r' =>
            ch ← unescape e;
            '(t, rest) ← parse_string_body r';
            Some (String ch t, rest)
        | EmptyString => None
        end
      else if (nat_of_ascii c <? 32)%nat then None
      else
        '(t, rest) ← parse_string_body r;
        Some (String c t, rest)
  end.

Definition parse_exponent (s : string) : option (Z * string) :=
  match s with
  | String c r =>
      if Ascii.eqb c "e" || Ascii.eqb c "E" then
        let '(neg, r1) :=
          match r with
          | String "-" r' => (true, r')
          | String "+" r' => (false, r')
          | _ => (false, r)
          end in
        let (x, r2) := span_digits r1 in
        n ← N_of_decimal x;
        Some (if neg : bool then - Z.of_N n else Z.of_N n, r2)
      else Some (0, s)
  | EmptyString => Some (0, s)
  end.

Definition parse_fraction (s : string) : option (string * string) :=
  match s with
  | String "." r =>
      let (f, r') := span_digits r in
      match f with EmptyString => None | _ => Some (f, r') end
  | _ => Some (EmptyString, s)
  end.

Definition parse_sign (s : string) : bool * string :=
  match s with
  | String "-" r => (true, r)
  | _ => (false, s)
  end.

(** The integer part: one digit at least, and no zero before another digit. *)
Definition int_ok (i : string) : bool :=
  match i with
  | EmptyString => false
  | String c EmptyString => true
  | String c _ => negb (is_zero_char c)
  end.

(** The digits of a number literal, after its sign. *)
Definition parse_magnitude (neg : bool) (s : string) : option (number * string) :=
  let (i, s2) := span_digits s in
  if int_ok i then
    '(f, s3) ← parse_fraction s2;
    '(x, s4) ← parse_exponent s3;
    Some (make_number neg (i +:+ f) (Z.of_nat (String.length i) + x), s4)
  else None.

Definition parse_number (s : string) : option (number * string) :=
  let (neg, s1) := parse_sign s in parse_magnitude neg s1.

Definition expect (lit : string) (v : json) (s : string) : option (json * string) :=
  if String.prefix lit s then Some (v, drop (String.length lit) s) else None.

(** A value that contains no other: a literal name, a string, a number. *)
Definition parse_scalar (t : string) : option (json * string) :=
  match t with
  | String "n" _ => expect "null" JNull t
  | String "t" _ => expect "true" (JBool true) t
  | String "f" _ => expect "false" (JBool false) t
  | String "034" r => '(x, rest) ← parse_string_body r; Some (JStr x, rest)
  | _ => '(n, rest) ← parse_number t; Some (JNum n, rest)
  end.

Fixpoint parse_value (fuel : nat) (s : string) : option (json * string) :=
  match fuel with
  | O => None
  | S f =>
      match skip_ws s with
      | String "[" r =>
          match skip_ws r with
          | String "]" rest => Some (JArr [], rest)
          | t => '(l, rest) ← parse_elements f t; Some (JArr l, rest)
          end
      | String "{" r =>
          match skip_ws r with
          | String "}" rest => Some (JObj [], rest)
          | t => '(m, rest) ← parse_members f [] t; Some (JObj m, rest)
          end
      | t => parse_scalar t
      end
  end
with parse_elements (fuel : nat) (s : string) : option (list json * string) :=
  match fuel with
  | O => None
  | S f =>
      '(v, r) ← parse_value f s;
      match skip_ws r with
      | String "," r' => '(l, rest) ← parse_elements f r'; Some (v :: l, rest)
      | String "]" rest => Some ([v], rest)
      | _ => None
      end
  end
with parse_members (fuel : nat) (acc : list (string * json)) (s : string)
  : option (list (string * json) * string) :=
  match fuel with
  | O => None
  | S f =>
      match skip_ws s with
      | String "034" r =>
          '(k, r1) ← parse_string_body r;
          match skip_ws r1 with
          | String ":" r2 =>
              '(v, r3) ← parse_value f r2;
              let acc' := obj_set k v acc in
              match skip_ws r3 with
              | String "," r4 => parse_members f acc' r4
              | String "}" rest => Some (acc', rest)
              | _ => None
              end
          | _ => None
          end
      | _ => None
      end
  end.

(** [JSON.parse]: one value, nothing but white space after it; anything else
    throws a SyntaxError. *)
Definition JSON_parse (text : string) : completion json :=
  match parse_value (S (String.length text)) text with
  | Some (v, rest) =>
      match skip_ws rest with
      | EmptyString => Normal v
      | _ => Throw (SyntaxError "Unexpected non-whitespace character after JSON")
      end
  | None => Throw (SyntaxError "Unexpected token in JSON")
  end.

(** Writing JSON text in this file: apostrophes stand for double quotes. *)
Fixpoint dq (s : string) : string :=
  match s with
  | EmptyString => EmptyString
  | String c r => String (if Ascii.eqb c "'" then dquote else c) (dq r)
  end.

(** ** The browser: persisted storage and the location *)

(** [localStorage]: string keys, string values. *)
Definition getItem (st : gmap string string) (k : string) : option string := st !! k.
Definition setItem (st : gmap string string) (k v : string) : gmap string string :=
  <[k := v]> st.
Definition removeItem (st : gmap string string) (k : string) : gmap string string :=
  delete k st.

Record Window : Type := mkWindow {
  localStorage : gmap string string;
  location_href : string
}.

(** The global environment: [None] where [typeof window === "undefined"]. *)
Definition Env : Type := option Window.

(** [if (s)] on a [string | null]. *)
Definition nonempty (s : string) : bool :=
  match s with EmptyString => false | _ => true end.

(** ** lib/api.ts *)

Inductive UserRole : Type := customer | worker | tutor.

Definition role_name (r : UserRole) : string :=
  match r with
  | customer => "customer"
  | worker => "worker"
  | tutor => "tutor"
  end.

Record User : Type := mkUser {
  id : number;
  name : string;
  email : string;
  role : UserRole;
  trust_score : number;
  created_at : string
}.

(** The object a [User] is at run time. *)
Definition User_json (u : User) : json :=
  JObj [("id", JNum (id u)); ("name", JStr (name u)); ("email", JStr (email u));
        ("role", JStr (role_name (role u))); ("trust_score", JNum (trust_score u));
        ("created_at", JStr (created_at u))].

Record File : Type := mkFile { file_name : string; file_content : string }.

(** [FormData]: the appended entries, in order. *)
Inductive FormValue : Type :=
  | FText (s : string)
  | FBlob (f : File).

Definition FormData : Type := list (string * FormValue).

Inductive Body : Type :=
  | NoBody
  | JsonBody (v : json)
  | FormBody (f : FormData).

Inductive Method : Type := GET | POST | PATCH.

Record AxiosRequestConfig : Type := mkConfig {
  method : Method;
  url : string;
  headers : gmap string string;
  data : Body
}.

Record AxiosResponse : Type := mkResponse {
  status : Z;
  response_data : json
}.

Record AxiosError : Type := mkError {
  message : string;
  response : option AxiosResponse
}.

(** A settled promise of a response. *)
Inductive Settled : Type :=
  | Fulfilled (r : AxiosResponse)
  | Rejected (err : AxiosError).

(** What the transport hands back: a response of any status, or no response. *)
Inductive Transport : Type :=
  | Received (r : AxiosResponse)
  | NetworkError (msg : string).

(** axios [settle] with the default [validateStatus]: 2xx resolves, every
    other status rejects with an error that carries the response. *)
Definition settle (t : Transport) : Settled :=
  match t with
  | Received r =>
      if (200 <=? status r) && (status r <? 300) then Fulfilled r
      else Rejected (mkError ("Request failed with status code " +:+
                                number_to_string (number_of_Z (status r))) (Some r))
  | NetworkError msg => Rejected (mkError msg None)
  end.

Definition set_header (k v : string) (config : AxiosRequestConfig)
  : AxiosRequestConfig :=
  mkConfig (method config) (url config) (<[k := v]> (headers config)) (data config).

Module api.

Definition defaults : gmap string string :=
  {[ "Content-Type" := "application/json" ]}.

Module interceptors.

(** api.ts 10-16 *)
Definition request (env : Env) (config : AxiosRequestConfig)
  : AxiosRequestConfig :=
  match env with
  | Some w =>
      match getItem (localStorage w) "token" with
      | Some token =>
          if nonempty token
          then set_header "Authorization" ("Bearer " +:+ token) config
          else config
      | None => config
      end
  | None => config
  end.

(** api.ts 18-28: [(r) => r] and the rejection handler. *)
Definition response (env : Env) (p : Settled) : Env * Settled :=
  match p with
  | Fulfilled r => (env, Fulfilled r)
  | Rejected err =>
      let unauthorized :=
        match response err with
        | Some r => status r =? 401
        | None => false
        end in
      match env with
      | Some w =>
          if unauthorized then
            let st := removeItem (localStorage w) "token" in
            let st := removeItem st "user" in
            (Some (mkWindow st "/login"), Rejected err)
          else (env, Rejected err)
      | None => (env, Rejected err)
      end
  end.

End interceptors.

(** One call through the instance ([api.get], [api.post], [api.patch]): the
    request interceptor, the transport (the backend, external), [settle],
    the response interceptor. *)
Definition call (backend : AxiosRequestConfig -> Transport) (env : Env)
  (config : AxiosRequestConfig) : Env * Settled :=
  interceptors.response env (settle (backend (interceptors.request env config))).

Definition get (path : string) : AxiosRequestConfig :=
  mkConfig GET path defaults NoBody.

Definition post (path : string) (body : Body) (extra : gmap string string)
  : AxiosRequestConfig :=
  mkConfig POST path (extra ∪ defaults) body.

End api.

(** Run-time arguments of a call: TypeScript's types are erased. *)
Inductive Arg : Type :=
  | AUndefined
  | ANumber (n : number)
  | AString (s : string)
  | AFile (f : File).

(** [String(a)] *)
Definition ToString (a : Arg) : string :=
  match a with
  | AUndefined => "undefined"
  | ANumber n => number_to_string n
  | AString s => s
  | AFile _ => "[object File]"
  end.

Definition Arg_truthy (a : Arg) : bool :=
  match a with
  | AUndefined => false
  | ANumber n => nonempty (num_digits n)
  | AString s => nonempty s
  | AFile _ => true
  end.

(** [form.append(name, value)]: blobs are kept, all else is converted. *)
Definition append (form : FormData) (k : string) (a : Arg) : FormData :=
  (form ++ [(k, match a with AFile f => FBlob f | _ => FText (ToString a) end)])%list.

Module workers.

(** api.ts 108-116 *)
Definition createProfile (serviceType : string) (price : Arg) (idDocument : Arg)
  : AxiosRequestConfig :=
  let form : FormData := [] in
  let form := append form "service_type" (AString serviceType) in
  let form := append form "price" (AString (ToString price)) in
  let form := if Arg_truthy idDocument then append form "id_document" idDocument
              else form in
  api.post "/api/workers/profile" (FormBody form)
    {[ "Content-Type" := "multipart/form-data" ]}.

End workers.

Module constants.
Definition serviceTypes : AxiosRequestConfig := api.get "/api/constants/service-types".
End constants.

Module bookings.
Definition list : AxiosRequestConfig := api.get "/api/bookings".
End bookings.

(** ** lib/auth (unnamed/part_000): the session hook *)

Module useAuth.

(** The two state cells of one mounted instance of the hook, as they stand
    once React has applied the updates a call made. *)
Record State : Type := mkState {
  user : json;
  loading : bool
}.

Definition setUser (v : json) (h : State) : State := mkState v (loading h).
Definition setLoading (b : bool) (h : State) : State := mkState (user h) b.

(** [useState(null)], [useState(true)] *)
Definition initial : State := mkState JNull true.

(** The mount effect, lines 10-20. *)
Definition effect (env : Env) (h : State) : completion State :=
  let stored :=
    match env with
    | Some w => getItem (localStorage w) "user"
    | None => None
    end in
  h ← match stored with
      | Some text =>
          if nonempty text then
            try_catch
              (v ← JSON_parse text; Normal (setUser v h))
              (fun _ => Normal (setUser JNull h))
          else Normal h
      | None => Normal h
      end;
  Normal (setLoading false h).

(** Lines 22-28. *)
Definition setUserAndToken (env : Env) (h : State) (u : User) (token : string)
  : Env * State :=
  let h := setUser (User_json u) h in
  match env with
  | Some w =>
      let st := setItem (localStorage w) "user" (JSON_stringify (User_json u)) in
      let st := setItem st "token" token in
      (Some (mkWindow st (location_href w)), h)
  | None => (env, h)
  end.

(** Lines 30-36. *)
Definition logout (env : Env) (h : State) : Env * State :=
  let h := setUser JNull h in
  match env with
  | Some w =>
      let st := removeItem (localStorage w) "user" in
      let st := removeItem st "token" in
      (Some (mkWindow st (location_href w)), h)
  | None => (env, h)
  end.

End useAuth.

(** ** The protected pages *)

(** What a page's guard effect does. *)
Inductive Action : Type :=
  | router_push (path : string)
  | request (config : AxiosRequestConfig).

(** What a page returns from its render. *)
Inductive View : Type :=
  | Nothing
  | Spinner
  | Content.

(** [user.role !== r] on a truthy [user] *)
Definition role_differs (v : json) (r : string) : bool :=
  match prop v "role" with
  | Some (JStr s) => negb (String.eqb s r)
  | _ => true
  end.

Module WorkerProfilePage.

(** page.tsx 19-30 *)
Definition effect (s : useAuth.State) : list Action :=
  if useAuth.loading s then []
  else if negb (truthy (useAuth.user s)) then [router_push "/login"]
  else if role_differs (useAuth.user s) "worker" then [router_push "/dashboard"]
  else [request constants.serviceTypes].

(** page.tsx 46-49 *)
Definition render (s : useAuth.State) : View :=
  if useAuth.loading s || negb (truthy (useAuth.user s)) then Nothing
  else if role_differs (useAuth.user s) "worker" then Nothing
  else Content.

(** page.tsx 32-44: the request the submit handler issues, from the three
    fields of the form (the selected service type, the price as typed, the
    chosen file).  The handler passes two arguments to [createProfile]. *)
Definition handleSubmit (serviceType price : string) (idDocument : option File)
  : AxiosRequestConfig :=
  workers.createProfile serviceType
    (match idDocument with Some f => AFile f | None => AUndefined end)
    AUndefined.

End WorkerProfilePage.

Module TutorProfilePage.

(** unnamed/part_003, 22-33 and 62-63 *)
Definition effect (s : useAuth.State) : list Action :=
  if useAuth.loading s then []
  else if negb (truthy (useAuth.user s)) then [router_push "/login"]
  else if role_differs (useAuth.user s) "tutor" then [router_push "/dashboard"]
  else [request constants.serviceTypes].

Definition render (s : useAuth.State) : View :=
  if useAuth.loading s || negb (truthy (useAuth.user s)) then Nothing
  else if role_differs (useAuth.user s) "tutor" then Nothing
  else Content.

End TutorProfilePage.

Module SearchPage.

(** unnamed/part_002, 25-35 and 81 *)
Definition effect (s : useAuth.State) : list Action :=
  if useAuth.loading s then []
  else if negb (truthy (useAuth.user s)) then [router_push "/login"]
  else [request constants.serviceTypes].

Definition render (s : useAuth.State) : View :=
  if useAuth.loading s || negb (truthy (useAuth.user s)) then Nothing
  else Content.

End SearchPage.

Module DashboardPage.

(** unnamed/part_004, 19-42 and 60-70; of the effect, the part that runs
    at once (what follows the bookings request is not a guard). *)
Definition effect (s : useAuth.State) : list Action :=
  if useAuth.loading s then []
  else if negb (truthy (useAuth.user s)) then [router_push "/login"]
  else [request bookings.list].

(** [loading] is the page's own flag, true until the bookings arrive. *)
Definition render (s : useAuth.State) (loading : bool) : View :=
  if useAuth.loading s || negb (truthy (useAuth.user s)) then Nothing
  else if loading then Spinner
  else Content.

End DashboardPage.

(** ** Vocabulary of the statements *)

(** Keys are pairwise distinct in every object of the value: what a value
    built by JavaScript always satisfies. *)
Fixpoint distinct (ks : list string) : bool :=
  match ks with
  | [] => true
  | k :: r => negb (existsb (String.eqb k) r) && distinct r
  end.

Fixpoint wf_json (v : json) : bool :=
  match v with
  | JArr l => forallb wf_json l
  | JObj m => distinct (List.map fst m) && forallb (fun kv => wf_json (snd kv)) m
  | _ => true
  end.

(** Recursion depth [parse_value] needs on the text of a value. *)
Fixpoint jsize (v : json) : nat :=
  match v with
  | JArr l => S (list_sum (List.map (fun x => S (jsize x)) l))
  | JObj m => S (list_sum (List.map (fun kv => S (jsize (snd kv))) m))
  | _ => 1%nat
  end.

(** Text after a number literal must not continue it. *)
Definition number_end (rest : string) : bool :=
  match rest with
  | EmptyString => true
  | String c _ =>
      negb (is_digit c || Ascii.eqb c "." || Ascii.eqb c "e" || Ascii.eqb c "E")
  end.

(** First characters of the text of a value. *)
Definition value_start (c : ascii) : bool :=
  is_digit c || Ascii.eqb c "-" || Ascii.eqb c "n" || Ascii.eqb c "t"
  || Ascii.eqb c "f" || Ascii.eqb c dquote || Ascii.eqb c "[" || Ascii.eqb c "{".

(** The value has the shape of the [User] interface (other properties may
    be present as well). *)
Definition is_number (o : option json) : bool :=
  match o with Some (JNum _) => true | _ => false end.
Definition is_string (o : option json) : bool :=
  match o with Some (JStr _) => true | _ => false end.
Definition is_role (o : option json) : bool :=
  match o with
  | Some (JStr s) => String.eqb s "customer" || String.eqb s "worker" || String.eqb s "tutor"
  | _ => false
  end.

Definition is_Identity (v : json) : bool :=
  match v with
  | JObj _ =>
      is_number (prop v "id") && is_string (prop v "name")
      && is_string (prop v "email") && is_role (prop v "role")
      && is_number (prop v "trust_score") && is_string (prop v "created_at")
  | _ => false
  end.

(** The text parses to a value of the shape of an Identity. *)
Definition parseable_as_Identity (text : string) : bool :=
  match JSON_parse text with
  | Normal v => is_Identity v
  | Throw _ => false
  end.

(** Both persisted entries, or neither. *)
Definition paired (st : gmap string string) : Prop :=
  is_Some (getItem st "user") <-> is_Some (getItem st "token").

(** *** The operations of the core on one browser *)

Inductive Op : Type :=
  | Initialize
  | Commit (u : User) (token : string)
  | Clear
  | Respond (t : Transport).

Definition step (op : Op) (a : Env * useAuth.State) : Env * useAuth.State :=
  let (env, h) := a in
  match op with
  | Initialize =>
      match useAuth.effect env h with
      | Normal h' => (env, h')
      | Throw _ => (env, h)
      end
  | Commit u token => useAuth.setUserAndToken env h u token
  | Clear => useAuth.logout env h
  | Respond t => (fst (api.interceptors.response env (settle t)), h)
  end.

(** *** Several consumers of the hook over one browser

    Every component that calls [useAuth()] owns its two state cells; the
    storage is the one thing they share. *)





(** *** The protected pages, uniformly *)

Inductive Page : Type :=
  | Search
  | Dashboard
  | WorkerProfile
  | TutorProfile.

Definition page_effect (p : Page) (s : useAuth.State) : list Action :=
  match p with
  | Search => SearchPage.effect s
  | Dashboard => DashboardPage.effect s
  | WorkerProfile => WorkerProfilePage.effect s
  | TutorProfile => TutorProfilePage.effect s
  end.

(** [own] is the page's own loading flag, which only the dashboard has. *)
Definition page_render (p : Page) (s : useAuth.State) (own : bool) : View :=
  match p with
  | Search => SearchPage.render s
  | Dashboard => DashboardPage.render s own
  | WorkerProfile => WorkerProfilePage.render s
  | TutorProfile => TutorProfilePage.render s
  end.

(** The role a page asks for, when it asks for one. *)
Definition required_role (p : Page) : option UserRole :=
  match p with
  | WorkerProfile => Some worker
  | TutorProfile => Some tutor
  | Search | Dashboard => None
  end.

(** *** Sample data *)

Definition sample_user : User :=
  mkUser (number_of_Z 1) "A" "a@example.com" customer (number_of_Z 0)
    "2024-01-01T00:00:00".

Definition sample_window : Window := mkWindow ∅ "/".

Definition sample_file : File := mkFile "id.pdf" "%PDF-1.4".

(** *** Auxiliary notions of the round-trip proof *)

(** A string that does not start with a digit. *)
Definition no_digit_ahead (rest : string) : bool :=
  match rest with
  | EmptyString => true
  | String c _ => negb (is_digit c)
  end.

(** One member of an object, as [JSON_stringify] writes it. *)
Definition member (kv : string * json) : string :=
  quote (fst kv) +:+ ":" +:+ JSON_stringify (snd kv).

(** The text of [v], followed by anything that does not continue a number,
    parses back to [v] with any sufficient recursion depth. *)
Definition round_trips (v : json) : Prop :=
  wf_json v = true -> forall (f : nat) (rest : string),
  (jsize v <= f)%nat -> number_end rest = true ->
  parse_value f (JSON_stringify v +:+ rest) = Some (v, rest).

Ltac each_char c := destruct c as [[] [] [] [] [] [] [] []].

(** * The rest of the client *)

(** ** Logging out from the pages *)

(** unnamed/part_004 54-58 and unnamed/part_002 75-79: the dashboard and the
    search page clear the storage themselves and push /login; the hook's
    cells are not touched. *)
Definition DashboardPage_logout (w : Window) : Window * list Action :=
  let st := removeItem (localStorage w) "token" in
  let st := removeItem st "user" in
  (mkWindow st (location_href w), [router_push "/login"]).

Definition SearchPage_logout (w : Window) : Window * list Action :=
  let st := removeItem (localStorage w) "token" in
  let st := removeItem st "user" in
  (mkWindow st (location_href w), [router_push "/login"]).

(** app/page.tsx 52-55: the home page's logout button calls the hook's
    [logout], then loads /login. *)
Definition NavLoggedIn_logout (w : Window) (h : useAuth.State)
  : Env * useAuth.State :=
  let (env, h) := useAuth.logout (Some w) h in
  (match env with
   | Some w' => Some (mkWindow (localStorage w') "/login")
   | None => None
   end, h).

(** ** The dashboard (unnamed/part_004) *)

Definition number_eqb (x y : number) : bool :=
  Bool.eqb (num_neg x) (num_neg y) && String.eqb (num_digits x) (num_digits y)
  && (num_point x =? num_point y).

Module Booking.
(** api.ts 62-71 *)
Record t : Type := mk {
  id : number;
  customer_id : number;
  provider_id : number;
  service_type : string;
  subject : option string;
  total_price : number;
  status : string;
  created_at : string
}.
End Booking.

(** [n === user.id] *)
Definition is_user_id (user : json) (n : number) : bool :=
  match prop user "id" with
  | Some (JNum m) => number_eqb n m
  | _ => false
  end.

(** api.ts 154-155 *)
Definition bookings_updateStatus (bookingId : number) (status : string)
  : AxiosRequestConfig :=
  mkConfig PATCH ("/api/bookings/" +:+ number_to_string bookingId) api.defaults
    (JsonBody (JObj [("status", JStr status)])).

(** Lines 201-227: the statuses the buttons shown for a booking send, in the
    order of the buttons (Accept, Reject, Mark completed). *)
Definition DashboardPage_offers (user : json) (b : Booking.t) : list string :=
  ((if role_differs user "customer" && is_user_id user (Booking.provider_id b)
       && String.eqb (Booking.status b) "pending"
    then ["accepted"; "cancelled"] else [])
   ++
   (if (is_user_id user (Booking.customer_id b)
        || is_user_id user (Booking.provider_id b))
       && String.eqb (Booking.status b) "accepted"
    then ["completed"] else []))%list.

(** The request behind each button: [updateBookingStatus(b.id, status)],
    lines 44-46. *)
Definition DashboardPage_patches (user : json) (b : Booking.t)
  : list AxiosRequestConfig :=
  List.map (bookings_updateStatus (Booking.id b)) (DashboardPage_offers user b).

(** api.ts 117 and 142 *)
Definition workers_getProfile : AxiosRequestConfig := api.get "/api/workers/profile".
Definition tutors_getProfile : AxiosRequestConfig := api.get "/api/tutors/profile".

(** The cells of the dashboard, lines 13-16. *)
Record DashboardState : Type := mkDashboardState {
  workerProfile : json;
  tutorProfile : json;
  bookingsList : json;
  dashboard_loading : bool
}.

Definition DashboardPage_initial : DashboardState :=
  mkDashboardState JNull JNull (JArr []) true.

(** [api.get(...).then((r) => set(r.data)).catch(() => {})] *)
Definition fetch_profile (backend : AxiosRequestConfig -> Transport) (env : Env)
  (config : AxiosRequestConfig) (current : json) : Env * json :=
  let (env, out) := api.call backend env config in
  (env, match out with Fulfilled r => response_data r | Rejected _ => current end).

(** Lines 25-41: [load], run by the effect once the guard has passed. *)
Definition DashboardPage_load (backend : AxiosRequestConfig -> Transport)
  (env : Env) (user : json) (d : DashboardState)
  : Env * DashboardState * list Action :=
  let (env, out) := api.call backend env bookings.list in
  match out with
  | Fulfilled r =>
      let (env, wp) :=
        if negb (role_differs user "worker")
        then fetch_profile backend env workers_getProfile (workerProfile d)
        else (env, workerProfile d) in
      let (env, tp) :=
        if negb (role_differs user "tutor")
        then fetch_profile backend env tutors_getProfile (tutorProfile d)
        else (env, tutorProfile d) in
      (env, mkDashboardState wp tp (response_data r) false, [])
  | Rejected _ =>
      (env, mkDashboardState (workerProfile d) (tutorProfile d) (bookingsList d) false,
       [router_push "/login"])
  end.

(** Lines 44-52. *)
Definition DashboardPage_updateBookingStatus
  (backend : AxiosRequestConfig -> Transport) (env : Env) (d : DashboardState)
  (bookingId : number) (status : string) : Env * DashboardState :=
  let (env, out) := api.call backend env (bookings_updateStatus bookingId status) in
  match out with
  | Fulfilled _ =>
      let (env, out) := api.call backend env bookings.list in
      match out with
      | Fulfilled r =>
          (env, mkDashboardState (workerProfile d) (tutorProfile d)
                  (response_data r) (dashboard_loading d))
      | Rejected _ => (env, d)
      end
  | Rejected _ => (env, d)
  end.

Definition sample_booking : Booking.t :=
  Booking.mk (number_of_Z 7) (number_of_Z 1) (number_of_Z 2) "plumbing" None
    (number_of_Z 500) "pending" "2024-01-02T00:00:00".

Definition sample_provider : User :=
  mkUser (number_of_Z 2) "B" "b@example.com" worker (number_of_Z 0)
    "2024-01-01T00:00:00".

(** ** parseFloat and trim (ECMA-262 19.2.4, 22.1.3.32) *)

(** What [parseFloat] returns: not a number, an infinity, or a finite number. *)
Inductive float : Type :=
  | NaN
  | Infinity (neg : bool)
  | Finite (n : number).

(** One white space or line terminator at the head of the text; the code
    points above 127 (U+00A0, U+1680, U+2000 to U+200A, U+2028, U+2029,
    U+202F, U+205F, U+3000, U+FEFF) in their UTF-8 form. *)
Definition skip_space (s : string) : option string :=
  match s with
  | EmptyString => None
  | String c r =>
      let n := nat_of_ascii c in
      if ((9 <=? n)%nat && (n <=? 13)%nat) || (n =? 32)%nat then Some r
      else
        match s with
        | String "194" (String "160" r2) => Some r2
        | String "225" (String "154" (String "128" r3)) => Some r3
        | String "226" (String "128" (String c3 r3)) =>
            let k := nat_of_ascii c3 in
            if ((128 <=? k)%nat && (k <=? 138)%nat) || (k =? 168)%nat
               || (k =? 169)%nat || (k =? 175)%nat
            then Some r3 else None
        | String "226" (String "129" (String "159" r3)) => Some r3
        | String "227" (String "128" (String "128" r3)) => Some r3
        | String "239" (String "187" (String "191" r3)) => Some r3
        | _ => None
        end
  end.

Fixpoint trim_start_upto (n : nat) (s : string) : string :=
  match n with
  | O => s
  | S k =>
      match skip_space s with
      | Some r => trim_start_upto k r
      | None => s
      end
  end.

(** [s.trimStart()] *)
Definition trimStart (s : string) : string := trim_start_upto (String.length s) s.

Definition parse_float_sign (s : string) : bool * string :=
  match s with
  | String "-" r => (true, r)
  | String "+" r => (false, r)
  | _ => (false, s)
  end.

(** The digits after a point, when there is a point. *)
Definition parse_float_fraction (s : string) : string * string :=
  match s with
  | String "." r => span_digits r
  | _ => (EmptyString, s)
  end.

(** The decimal literal after the sign: digits, a fraction, an exponent. *)
Definition parse_float_digits (neg : bool) (t1 : string) : float :=
  let (d1, t2) := span_digits t1 in
  let (d2, t3) := parse_float_fraction t2 in
  match d1 +:+ d2 with
  | EmptyString => NaN
  | digits =>
      let x := match parse_exponent t3 with Some (x, _) => x | None => 0 end in
      Finite (make_number neg digits (Z.of_nat (String.length d1) + x))
  end.

(** [parseFloat]: the longest prefix of the trimmed text that is a
    StrDecimalLiteral; NaN when there is none. *)
Definition parseFloat (text : string) : float :=
  let (neg, t1) := parse_float_sign (trimStart text) in
  if String.prefix "Infinity" t1 then Infinity neg
  else parse_float_digits neg t1.

(** [Number.isNaN(x)], [x <= 0], and the number as JSON.stringify writes it. *)
Definition isNaN (x : float) : bool :=
  match x with NaN => true | _ => false end.

Definition le_zero (x : float) : bool :=
  match x with
  | NaN => false
  | Infinity neg => neg
  | Finite n => num_neg n || negb (nonempty (num_digits n))
  end.

Definition float_json (x : float) : json :=
  match x with
  | Finite n => JNum n
  | _ => JNull
  end.

(** ** The search page (unnamed/part_002) *)

(** An object literal whose properties may be [undefined]: the request body
    leaves those out. *)
Definition object_literal (fields : list (string * option json)) : json :=
  JObj (omap (fun kv => match snd kv with
                        | Some v => Some (fst kv, v)
                        | None => None
                        end) fields).

(** [v || fallback] *)
Definition or_else (v : option json) (fallback : json) : json :=
  match v with
  | Some x => if truthy x then x else fallback
  | None => fallback
  end.

(** [v || undefined] *)
Definition or_undefined (v : option json) : option json :=
  match v with
  | Some x => if truthy x then Some x else None
  | None => None
  end.

(** api.ts 146-147: the query parameters travel beside the config. *)
Definition providers_search (params : list (string * string))
  : AxiosRequestConfig * list (string * string) :=
  (api.get "/api/providers/search", params).

(** api.ts 152-153 *)
Definition bookings_create (provider_id : option json) (service_type : json)
  (total_price : float) (subject : option json) : AxiosRequestConfig :=
  api.post "/api/bookings"
    (JsonBody (object_literal
                 [("provider_id", provider_id); ("service_type", Some service_type);
                  ("total_price", Some (float_json total_price));
                  ("subject", subject)])) ∅.

Inductive SearchType : Type := SearchHome | SearchTutor.

Module SearchPageState.
(** Lines 15-22. *)
Record t : Type := mk {
  searchType : SearchType;
  selectedService : string;
  selectedSubject : string;
  results : json;
  loading : bool;
  bookingModal : json;
  bookingPrice : string;
  bookingSubmitting : bool
}.
End SearchPageState.

(** Lines 40-47: the parameters of the search, when one is made. *)
Definition SearchPage_query (s : SearchPageState.t) : option (list (string * string)) :=
  match SearchPageState.searchType s with
  | SearchHome =>
      if nonempty (SearchPageState.selectedService s)
      then Some [("service_type", SearchPageState.selectedService s)] else None
  | SearchTutor =>
      if nonempty (SearchPageState.selectedSubject s)
      then Some [("subject", SearchPageState.selectedSubject s)] else None
  end.

Definition set_results (v : json) (s : SearchPageState.t) : SearchPageState.t :=
  SearchPageState.mk (SearchPageState.searchType s) (SearchPageState.selectedService s)
    (SearchPageState.selectedSubject s) v false (SearchPageState.bookingModal s)
    (SearchPageState.bookingPrice s) (SearchPageState.bookingSubmitting s).

(** Lines 37-54.  The backend sees the config and the query parameters. *)
Definition SearchPage_runSearch
  (backend : AxiosRequestConfig -> list (string * string) -> Transport)
  (env : Env) (s : SearchPageState.t) : Env * SearchPageState.t :=
  match SearchPage_query s with
  | Some q =>
      let (config, params) := providers_search q in
      let (env, out) := api.call (fun c => backend c params) env config in
      (env, set_results (match out with
                         | Fulfilled r => response_data r
                         | Rejected _ => JArr []
                         end) s)
  | None => (env, set_results (JArr []) s)
  end.

(** Lines 57-64: the request [handleBook] sends, when its guards let it. *)
Definition SearchPage_bookingRequest (user : json) (s : SearchPageState.t)
  : option AxiosRequestConfig :=
  let modal := SearchPageState.bookingModal s in
  if negb (truthy modal) || negb (nonempty (SearchPageState.bookingPrice s))
     || role_differs user "customer"
  then None
  else
    let price := parseFloat (SearchPageState.bookingPrice s) in
    if isNaN price || le_zero price then None
    else
      let serviceType :=
        if negb (role_differs modal "tutor") then JStr "tutor"
        else or_else (prop modal "service_type") (JStr EmptyString) in
      let subject := or_undefined (prop modal "subject") in
      Some (bookings_create (prop modal "id") serviceType price subject).

(** Lines 56-73. *)
Definition SearchPage_handleBook
  (backend : AxiosRequestConfig -> list (string * string) -> Transport)
  (env : Env) (user : json) (s : SearchPageState.t) : Env * SearchPageState.t :=
  match SearchPage_bookingRequest user s with
  | None => (env, s)
  | Some config =>
      let (env, out) := api.call (fun c => backend c []) env config in
      match out with
      | Fulfilled _ =>
          let closed :=
            SearchPageState.mk (SearchPageState.searchType s)
              (SearchPageState.selectedService s) (SearchPageState.selectedSubject s)
              (SearchPageState.results s) (SearchPageState.loading s)
              JNull EmptyString false in
          SearchPage_runSearch backend env closed
      | Rejected _ =>
          (env, SearchPageState.mk (SearchPageState.searchType s)
                  (SearchPageState.selectedService s)
                  (SearchPageState.selectedSubject s) (SearchPageState.results s)
                  (SearchPageState.loading s) (SearchPageState.bookingModal s)
                  (SearchPageState.bookingPrice s) false)
      end
  end.

(** [String(v)] for a value read from a response. *)
Fixpoint String_of (v : json) : string :=
  match v with
  | JNull => "null"
  | JBool b => if b then "true" else "false"
  | JNum n => number_to_string n
  | JStr s => s
  | JArr l =>
      (fix join (l : list json) : string :=
         match l with
         | [] => EmptyString
         | x :: r =>
             (match x with JNull => EmptyString | _ => String_of x end)
             +:+ (match r with [] => EmptyString | _ => "," +:+ join r end)
         end) l
  | JObj _ => "[object Object]"
  end.

(** Lines 226-229: the Book button of a result [p]. *)
Definition SearchPage_openBooking (p : json) (s : SearchPageState.t)
  : SearchPageState.t :=
  SearchPageState.mk (SearchPageState.searchType s)
    (SearchPageState.selectedService s) (SearchPageState.selectedSubject s)
    (SearchPageState.results s) (SearchPageState.loading s) p
    (match prop p "price" with
     | Some JNull | None => EmptyString
     | Some v => String_of v
     end)
    (SearchPageState.bookingSubmitting s).

Definition sample_search : SearchPageState.t :=
  SearchPageState.mk SearchHome "plumber" "maths" (JArr []) false JNull
    EmptyString false.

Definition sample_result : json :=
  JObj [("id", JNum (number_of_Z 7)); ("name", JStr "Asha");
        ("role", JStr "worker"); ("service_type", JStr "plumber");
        ("price", JNum (number_of_Z 500))].

(** ** The sign-in pages (app/login/page.tsx, unnamed/part_001) *)


Definition auth_login (email password : string) : AxiosRequestConfig :=
  api.post "/api/auth/login"
    (JsonBody (JObj [("email", JStr email); ("password", JStr password)])) ∅.

(** [err?.response?.data?.detail || fallback] *)
Definition error_detail (err : AxiosError) (fallback : string) : json :=
  match response err with
  | Some r =>
      match response_data r with
      | JNull => JStr fallback
      | d => or_else (prop d "detail") (JStr fallback)
      end
  | None => JStr fallback
  end.

(** lib/auth 22-28 on the values a response carries: TypeScript's types are
    erased, [None] is [undefined].  [JSON.stringify(undefined)] is
    [undefined], which [setItem] stores as the text of that name; the user
    cell holds [JNull] for it, nothing that reads the cell tells the two
    apart. *)
Definition useAuth_setUserAndToken (env : Env) (h : useAuth.State)
  (u token : option json) : Env * useAuth.State :=
  let h := useAuth.setUser (match u with Some v => v | None => JNull end) h in
  match env with
  | Some w =>
      let st := setItem (localStorage w) "user"
                  (match u with Some v => JSON_stringify v | None => "undefined" end) in
      let st := setItem st "token"
                  (match token with Some t => String_of t | None => "undefined" end) in
      (Some (mkWindow st (location_href w)), h)
  | None => (env, h)
  end.

Module LoginPageState.
(** login/page.tsx 10-13 *)
Record t : Type := mk {
  email : string;
  password : string;
  error : json;
  loading : bool
}.
End LoginPageState.

(** login/page.tsx 15-28.  Reading [data.user] of a null answer throws, and
    so does [window] where there is none; both land in the catch. *)
Definition LoginPage_handleSubmit (backend : AxiosRequestConfig -> Transport)
  (env : Env) (h : useAuth.State) (s : LoginPageState.t)
  : Env * useAuth.State * LoginPageState.t :=
  let failed (e : json) :=
    LoginPageState.mk (LoginPageState.email s) (LoginPageState.password s) e false in
  let (env, out) :=
    api.call backend env
      (auth_login (LoginPageState.email s) (LoginPageState.password s)) in
  match out with
  | Fulfilled r =>
      match response_data r with
      | JNull => (env, h, failed (JStr "Login failed"))
      | data =>
          let (env, h) :=
            useAuth_setUserAndToken env h (prop data "user")
              (prop data "access_token") in
          match env with
          | Some w =>
              (Some (mkWindow (localStorage w) "/dashboard"), h,
               failed (JStr EmptyString))
          | None => (env, h, failed (JStr "Login failed"))
          end
      end
  | Rejected err => (env, h, failed (error_detail err "Login failed"))
  end.

Module RegisterPageState.
(** part_001 11-16 *)
Record t : Type := mk {
  name : string;
  email : string;
  password : string;
  role : UserRole;
  error : json;
  loading : bool
}.
End RegisterPageState.


Definition sample_login : LoginPageState.t :=
  LoginPageState.mk "asha@example.com" "secret" (JStr EmptyString) false.


(** ** The assistant page (the second document of app/layout.tsx) *)

(** The text is white space and line terminators only. *)
Definition is_blank (s : string) : bool := negb (nonempty (trimStart s)).

(** [s.trimEnd()]: cut where what is left is blank. *)
Fixpoint trimEnd (s : string) : string :=
  match s with
  | EmptyString => EmptyString
  | String c r => if is_blank s then EmptyString else String c (trimEnd r)
  end.

(** [s.trim()] *)
Definition trim (s : string) : string := trimEnd (trimStart s).

Module ChatMessage.
(** api.ts 164-167; [content] is what the answer carried, [None] for
    [undefined]. *)
Inductive Role : Type := user | assistant.
Record t : Type := mk {
  role : Role;
  content : option json
}.
Definition role_text (r : Role) : string :=
  match r with user => "user" | assistant => "assistant" end.
End ChatMessage.

(** Line 56: [{ role: m.role, content: m.content }] in the request body. *)
Definition history_entry (m : ChatMessage.t) : json :=
  object_literal [("role", Some (JStr (ChatMessage.role_text (ChatMessage.role m))));
                  ("content", ChatMessage.content m)].

(** api.ts 184-187 *)
Definition chat_send (message : string) (conversation_history : list json)
  : AxiosRequestConfig :=
  api.post "/api/chat"
    (JsonBody (JObj [("message", JStr message);
                     ("conversation_history", JArr conversation_history)])) ∅.

(** [v?.length] as a condition. *)
Definition has_length (v : option json) : bool :=
  match v with
  | Some (JArr l) => match l with [] => false | _ => true end
  | Some (JStr s) => nonempty s
  | Some (JObj m) => match assoc "length" m with Some x => truthy x | None => false end
  | _ => false
  end.

Module ChatPageState.
(** Lines 37-40. *)
Record t : Type := mk {
  messages : list ChatMessage.t;
  input : string;
  loading : bool;
  lastProviders : json
}.
End ChatPageState.

(** Lines 47-73.  The updater of line 58 reads [data.reply] when React runs
    it: on a null answer that read throws a TypeError outside the try, and
    the page is lost ([None]). *)
Definition ChatPage_send (backend : AxiosRequestConfig -> Transport) (env : Env)
  (s : ChatPageState.t) : Env * option ChatPageState.t :=
  let text := trim (ChatPageState.input s) in
  if negb (nonempty text) || ChatPageState.loading s then (env, Some s)
  else
    let userMsg := ChatMessage.mk ChatMessage.user (Some (JStr text)) in
    let history := List.map history_entry (ChatPageState.messages s ++ [userMsg])%list in
    let answered (c : option json) (providers : json) :=
      ChatPageState.mk
        (ChatPageState.messages s ++ [userMsg; ChatMessage.mk ChatMessage.assistant c])%list
        EmptyString false providers in
    let (env, out) := api.call backend env (chat_send text history) in
    match out with
    | Fulfilled r =>
        match response_data r with
        | JNull => (env, None)
        | data =>
            (env, Some (answered (prop data "reply")
                            (if has_length (prop data "recommended_providers")
                             then match prop data "recommended_providers" with
                                  | Some v => v
                                  | None => JNull
                                  end
                             else JNull)))
        end
    | Rejected err =>
        (env, Some (answered
                        (Some (error_detail err
                                 "Sorry, I couldn't process that. Please try again."))
                        JNull))
    end.


(** * Properties *)

#[local] Arguments String.append !_ _ / : simpl nomatch.

(** ** Strings *)

Lemma append_assoc (a b c : string) : (a +:+ b) +:+ c = a +:+ (b +:+ c).
Proof. induction a as [|x a IH]; simpl; [reflexivity | now rewrite IH]. Qed.

Lemma append_empty_r (a : string) : a +:+ EmptyString = a.
Proof. induction a as [|x a IH]; simpl; [reflexivity | now rewrite IH]. Qed.

Lemma length_append (a b : string) :
  String.length (a +:+ b) = (String.length a + String.length b)%nat.
Proof. induction a as [|x a IH]; simpl; [reflexivity | now rewrite IH]. Qed.

Lemma length_zeros (n : nat) : String.length (zeros n) = n.
Proof. induction n; simpl; congruence. Qed.

Lemma take_drop (n : nat) (s : string) : take n s +:+ drop n s = s.
Proof.
  revert s; induction n as [|n IH]; intros [|c s]; simpl; try reflexivity.
  now rewrite IH.
Qed.

Lemma length_take (n : nat) (s : string) :
  (n <= String.length s)%nat -> String.length (take n s) = n.
Proof.
  revert s; induction n as [|n IH]; intros [|c s]; simpl; intros H; try lia.
  rewrite IH; lia.
Qed.

Lemma all_digits_append (a b : string) :
  all_digits (a +:+ b) = all_digits a && all_digits b.
Proof.
  induction a as [|x a IH]; simpl; [reflexivity|].
  rewrite IH. now rewrite andb_assoc.
Qed.

Lemma all_digits_zeros (n : nat) : all_digits (zeros n) = true.
Proof. induction n; simpl; auto. Qed.

Lemma all_digits_take (n : nat) (s : string) :
  all_digits s = true -> all_digits (take n s) = true.
Proof.
  revert s; induction n as [|n IH]; intros [|c s]; simpl; auto.
  intros [-> H]%andb_true_iff. simpl. auto.
Qed.

Lemma all_digits_drop (n : nat) (s : string) :
  all_digits s = true -> all_digits (drop n s) = true.
Proof.
  revert s; induction n as [|n IH]; intros [|c s]; simpl; auto.
  intros [_ H]%andb_true_iff. auto.
Qed.

Lemma span_digits_append (d rest : string) :
  all_digits d = true -> no_digit_ahead rest = true ->
  span_digits (d +:+ rest) = (d, rest).
Proof.
  intros Hd Hr. induction d as [|c d IH]; simpl in *.
  - destruct rest as [|c r]; simpl in *; [reflexivity|].
    apply negb_true_iff in Hr. now rewrite Hr.
  - apply andb_true_iff in Hd as [Hc Hd]. rewrite Hc, (IH Hd). reflexivity.
Qed.

Lemma number_end_no_digit (rest : string) :
  number_end rest = true -> no_digit_ahead rest = true.
Proof.
  destruct rest as [|c r]; simpl; [reflexivity|].
  intros H%negb_true_iff. rewrite !orb_false_iff in H.
  destruct H as [[[H _] _] _]. now rewrite H.
Qed.

Lemma strip_leading_zeros_zeros (a : nat) (s : string) :
  strip_leading_zeros s = (0%nat, s) ->
  strip_leading_zeros (zeros a +:+ s) = (a, s).
Proof.
  intros H. induction a as [|a IH]; simpl; [assumption|].
  now rewrite IH.
Qed.

Lemma strip_leading_zeros_nonzero (c : ascii) (s : string) :
  is_zero_char c = false -> strip_leading_zeros (String c s) = (0%nat, String c s).
Proof. intros H. simpl. now rewrite H. Qed.

Lemma strip_trailing_zeros_zeros (b : nat) : strip_trailing_zeros (zeros b) = EmptyString.
Proof. induction b as [|b IH]; simpl; [reflexivity|]. now rewrite IH. Qed.

Lemma last_char_cons (c : ascii) (s : string) :
  last_char (String c s) =
  match s with EmptyString => Some c | _ => last_char s end.
Proof. destruct s as [|d s]; reflexivity. Qed.

Lemma strip_trailing_zeros_id (s : string) :
  (match last_char s with Some l => negb (is_zero_char l) | None => false end) = true ->
  forall b, strip_trailing_zeros (s +:+ zeros b) = s.
Proof.
  induction s as [|c s IH]; intros H b.
  - discriminate H.
  - rewrite last_char_cons in H. simpl.
    destruct s as [|d s].
    + simpl. rewrite strip_trailing_zeros_zeros.
      apply negb_true_iff in H. now rewrite H.
    + rewrite (IH H b). reflexivity.
Qed.

(** ** Numbers *)

Lemma number_eq (x y : number) :
  num_neg x = num_neg y -> num_digits x = num_digits y ->
  num_point x = num_point y -> x = y.
Proof.
  destruct x as [n1 d1 p1 ok1], y as [n2 d2 p2 ok2]; simpl.
  intros -> -> ->. f_equal. apply UIP_dec, bool_dec.
Qed.

Lemma canonical_digits (neg : bool) (c : ascii) (s : string) (p : Z) :
  canonical neg (String c s) p = true ->
  all_digits (String c s) = true /\ is_zero_char c = false /\
  (match last_char (String c s) with
   | Some l => negb (is_zero_char l) | None => false end) = true.
Proof.
  unfold canonical. rewrite !andb_true_iff, negb_true_iff. tauto.
Qed.

Lemma make_number_spec (x : number) (a b : nat) (P : Z) :
  num_digits x <> EmptyString -> P - Z.of_nat a = num_point x ->
  make_number (num_neg x) (zeros a +:+ num_digits x +:+ zeros b) P = x.
Proof.
  destruct x as [neg s p ok]; simpl. intros Hs HP.
  destruct s as [|c s]; [congruence|].
  destruct (canonical_digits _ _ _ _ ok) as (Hd & Hc & Hl).
  unfold make_number.
  rewrite strip_leading_zeros_zeros
    by (simpl; apply strip_leading_zeros_nonzero, Hc).
  rewrite (strip_trailing_zeros_id _ Hl). rewrite HP.
  destruct (bool_dec _ _) as [H|H]; [|congruence].
  now apply number_eq.
Qed.

Lemma make_number_zero (x : number) :
  num_digits x = EmptyString -> make_number false "0" 1 = x.
Proof.
  destruct x as [neg s p ok]; simpl. intros ->.
  pose proof ok as H. simpl in H. apply andb_true_iff in H as [Hn Hp].
  apply negb_true_iff in Hn. apply Z.eqb_eq in Hp.
  apply number_eq; simpl; congruence.
Qed.

(** *** Decimal exponents *)

Lemma all_digits_string_of_uint (d : Decimal.uint) :
  all_digits (NilEmpty.string_of_uint d) = true.
Proof. induction d; simpl; auto. Qed.

Lemma all_digits_decimal_of_N (n : N) : all_digits (decimal_of_N n) = true.
Proof.
  unfold decimal_of_N, NilZero.string_of_uint.
  destruct (N.to_uint n); try apply all_digits_string_of_uint. reflexivity.
Qed.

Lemma N_of_decimal_of_N (n : N) : N_of_decimal (decimal_of_N n) = Some n.
Proof.
  unfold N_of_decimal, decimal_of_N.
  rewrite NilZero.usu.
  - now rewrite DecimalN.Unsigned.of_to.
  - destruct n; simpl; [discriminate|]. apply DecimalPos.Unsigned.to_uint_nonnil.
Qed.

Lemma parse_exponent_none (rest : string) :
  number_end rest = true -> parse_exponent rest = Some (0, rest).
Proof.
  destruct rest as [|c r]; [reflexivity|]. unfold number_end, parse_exponent.
  intros H%negb_true_iff. rewrite !orb_false_iff in H.
  destruct H as [[[_ _] He] HE]. now rewrite He, HE.
Qed.

Lemma parse_exponent_some (e : Z) (rest : string) :
  number_end rest = true ->
  parse_exponent ("e" +:+ (if e <? 0 then "-" else "+") +:+
                  decimal_of_N (Z.abs_N e) +:+ rest) = Some (e, rest).
Proof.
  intros H%number_end_no_digit.
  destruct (Z.ltb_spec e 0) as [He|He]; simpl;
    rewrite (span_digits_append _ _ (all_digits_decimal_of_N _) H);
    rewrite N_of_decimal_of_N; simpl; do 2 f_equal; lia.
Qed.

Lemma parse_fraction_none (rest : string) :
  number_end rest = true -> parse_fraction rest = Some (EmptyString, rest).
Proof.
  destruct rest as [|c r]; [reflexivity|]. unfold number_end.
  intros H%negb_true_iff. rewrite !orb_false_iff in H.
  destruct H as [[[_ Hp] _] _].
  destruct c as [[] [] [] [] [] [] [] []]; try reflexivity. discriminate Hp.
Qed.

Lemma parse_fraction_e (rest : string) :
  parse_fraction (String "e" rest) = Some (EmptyString, String "e" rest).
Proof. reflexivity. Qed.

Lemma parse_fraction_some (f rest : string) :
  f <> EmptyString -> all_digits f = true -> no_digit_ahead rest = true ->
  parse_fraction ("." +:+ f +:+ rest) = Some (f, rest).
Proof.
  intros Hf Hd Hr. simpl. rewrite (span_digits_append _ _ Hd Hr).
  destruct f; congruence.
Qed.

Lemma parse_sign_digit (c : ascii) (r : string) :
  is_digit c = true -> parse_sign (String c r) = (false, String c r).
Proof.
  destruct c as [[] [] [] [] [] [] [] []]; try reflexivity. discriminate.
Qed.

Lemma parse_number_signed (neg : bool) (c : ascii) (b : string) :
  is_digit c = true ->
  parse_number (if neg then "-" +:+ String c b else String c b)
  = parse_magnitude neg (String c b).
Proof.
  intros Hc. unfold parse_number. destruct neg; [reflexivity|].
  now rewrite (parse_sign_digit _ _ Hc).
Qed.

Lemma parse_magnitude_parts (neg : bool) (i f t1 t2 rest : string) (x : Z) :
  all_digits i = true -> int_ok i = true -> no_digit_ahead t1 = true ->
  parse_fraction t1 = Some (f, t2) -> parse_exponent t2 = Some (x, rest) ->
  parse_magnitude neg (i +:+ t1)
  = Some (make_number neg (i +:+ f) (Z.of_nat (String.length i) + x), rest).
Proof.
  intros Hi Hok Ht Hf Hx. unfold parse_magnitude.
  rewrite (span_digits_append _ _ Hi Ht), Hok, Hf. simpl. rewrite Hx. reflexivity.
Qed.

Lemma int_ok_nonzero (c : ascii) (s : string) :
  is_zero_char c = false -> int_ok (String c s) = true.
Proof. intros H. simpl. rewrite H. now destruct s. Qed.

Lemma take_cons (n : nat) (c : ascii) (s : string) :
  (0 < n)%nat -> take n (String c s) = String c (take (n - 1) s).
Proof. destruct n; [lia|]. simpl. now rewrite Nat.sub_0_r. Qed.

Lemma drop_nonempty (n : nat) (s : string) :
  (n < String.length s)%nat -> drop n s <> EmptyString.
Proof.
  revert s; induction n as [|n IH]; intros [|c s]; simpl; try lia; try discriminate.
  intros H. apply IH. lia.
Qed.

Lemma no_digit_ahead_dot (s : string) : no_digit_ahead (String "." s) = true.
Proof. reflexivity. Qed.

Lemma no_digit_ahead_e (s : string) : no_digit_ahead (String "e" s) = true.
Proof. reflexivity. Qed.

Theorem parse_number_to_string (x : number) (rest : string) :
  number_end rest = true ->
  parse_number (number_to_string x +:+ rest) = Some (x, rest).
Proof.
  intros Hrest. pose proof (number_end_no_digit _ Hrest) as Hnd.
  unfold number_to_string.
  destruct (num_digits x) as [|c s'] eqn:Hs.
  - change (parse_number (String "0" rest) = Some (x, rest)).
    rewrite (parse_number_signed false "0" rest eq_refl).
    change (String "0" rest) with ("0" +:+ rest).
    rewrite (parse_magnitude_parts false "0" EmptyString rest rest rest 0);
      auto using parse_fraction_none, parse_exponent_none.
    do 2 f_equal. exact (make_number_zero x Hs).
  - pose proof (num_ok x) as Hok. rewrite Hs in Hok.
    destruct (canonical_digits _ _ _ _ Hok) as (Hd & Hc & Hl).
    assert (Hcd : is_digit c = true) by (simpl in Hd; now apply andb_true_iff in Hd).
    assert (Hne : num_digits x <> EmptyString) by (rewrite Hs; discriminate).
    set (s := String c s') in *.
    set (k := Z.of_nat (String.length s)).
    assert (Hk : 0 < k) by (unfold k, s; simpl; lia).
    set (n := num_point x).
    destruct ((k <=? n) && (n <=? 21)) eqn:Ha; [|
    destruct ((0 <? n) && (n <=? 21)) eqn:Hb; [|
    destruct ((-6 <? n) && (n <=? 0)) eqn:Hc']].
    + (* digits, then zeros *)
      apply andb_true_iff in Ha as [Ha1 Ha2]. apply Z.leb_le in Ha1.
      replace ((if num_neg x then "-" +:+ s +:+ zeros (Z.to_nat (n - k))
                else s +:+ zeros (Z.to_nat (n - k))) +:+ rest)
        with ((if num_neg x then "-" +:+ String c (s' +:+ zeros (Z.to_nat (n - k)) +:+ rest)
               else String c (s' +:+ zeros (Z.to_nat (n - k)) +:+ rest)))
        by (unfold s; destruct (num_neg x); simpl; now rewrite !append_assoc).
      rewrite (parse_number_signed _ _ _ Hcd).
      change (String c (s' +:+ zeros (Z.to_nat (n - k)) +:+ rest))
        with (String c s' +:+ zeros (Z.to_nat (n - k)) +:+ rest).
      fold s. rewrite <- append_assoc.
      rewrite (parse_magnitude_parts _ (s +:+ zeros (Z.to_nat (n - k)))
                 EmptyString rest rest rest 0);
        auto using parse_fraction_none, parse_exponent_none.
      * f_equal. f_equal. rewrite append_empty_r.
        rewrite <- Hs.
        apply (make_number_spec x 0 (Z.to_nat (n - k))); [assumption|].
        rewrite length_append, length_zeros. rewrite Hs. fold s. fold k. fold n. lia.
      * rewrite all_digits_append, all_digits_zeros. fold s in Hd. now rewrite Hd.
      * unfold s. simpl. apply int_ok_nonzero, Hc.
    + (* digits with a point inside *)
      apply andb_true_iff in Hb as [Hb1 Hb2]. apply Z.ltb_lt in Hb1.
      apply Z.leb_le in Hb2.
      assert (Hnk : n < k).
      { apply andb_false_iff in Ha as [Ha|Ha]; apply Z.leb_gt in Ha; lia. }
      assert (Htk : take (Z.to_nat n) s = String c (take (Z.to_nat n - 1) s'))
        by (apply take_cons; lia).
      replace ((if num_neg x
                then "-" +:+ take (Z.to_nat n) s +:+ "." +:+ drop (Z.to_nat n) s
                else take (Z.to_nat n) s +:+ "." +:+ drop (Z.to_nat n) s) +:+ rest)
        with (if num_neg x
              then "-" +:+ String c (take (Z.to_nat n - 1) s' +:+ "." +:+ drop (Z.to_nat n) s +:+ rest)
              else String c (take (Z.to_nat n - 1) s' +:+ "." +:+ drop (Z.to_nat n) s +:+ rest))
        by (rewrite Htk; destruct (num_neg x); simpl; now rewrite !append_assoc).
      rewrite (parse_number_signed _ _ _ Hcd).
      change (String c (take (Z.to_nat n - 1) s' +:+ "." +:+ drop (Z.to_nat n) s +:+ rest))
        with (String c (take (Z.to_nat n - 1) s') +:+ "." +:+ drop (Z.to_nat n) s +:+ rest).
      rewrite <- Htk.
      rewrite (parse_magnitude_parts _ (take (Z.to_nat n) s) (drop (Z.to_nat n) s)
                 ("." +:+ drop (Z.to_nat n) s +:+ rest) rest rest 0);
        auto using parse_exponent_none.
      * f_equal. f_equal. rewrite take_drop. rewrite <- Hs.
        rewrite <- (append_empty_r (num_digits x)) at 1.
        apply (make_number_spec x 0 0); [assumption|].
        rewrite length_take; [fold n; lia|]. rewrite Hs. fold s. lia.
      * apply all_digits_take. exact Hd.
      * rewrite Htk. apply int_ok_nonzero, Hc.
      * apply parse_fraction_some; auto.
        -- apply drop_nonempty. lia.
        -- apply all_digits_drop. exact Hd.
    + (* zero, point, zeros, digits *)
      apply andb_true_iff in Hc' as [Hc1 Hc2]. apply Z.ltb_lt in Hc1.
      apply Z.leb_le in Hc2.
      replace ((if num_neg x then "-" +:+ "0." +:+ zeros (Z.to_nat (- n)) +:+ s
                else "0." +:+ zeros (Z.to_nat (- n)) +:+ s) +:+ rest)
        with (if num_neg x
              then "-" +:+ String "0" ("." +:+ (zeros (Z.to_nat (- n)) +:+ s) +:+ rest)
              else String "0" ("." +:+ (zeros (Z.to_nat (- n)) +:+ s) +:+ rest))
        by (destruct (num_neg x); simpl; now rewrite !append_assoc).
      rewrite (parse_number_signed _ "0" _ eq_refl).
      change (String "0" ("." +:+ (zeros (Z.to_nat (- n)) +:+ s) +:+ rest))
        with ("0" +:+ "." +:+ (zeros (Z.to_nat (- n)) +:+ s) +:+ rest).
      rewrite (parse_magnitude_parts _ "0" (zeros (Z.to_nat (- n)) +:+ s)
                 ("." +:+ (zeros (Z.to_nat (- n)) +:+ s) +:+ rest) rest rest 0);
        auto using parse_exponent_none.
      * f_equal. f_equal.
        change ("0" +:+ zeros (Z.to_nat (- n)) +:+ s)
          with (zeros (S (Z.to_nat (- n))) +:+ s).
        rewrite <- Hs.
        rewrite <- (append_empty_r (num_digits x)).
        apply (make_number_spec x (S (Z.to_nat (- n))) 0); [assumption|].
        fold n. simpl String.length. lia.
      * apply parse_fraction_some; auto.
        -- unfold s. destruct (zeros _); discriminate.
        -- rewrite all_digits_append, all_digits_zeros. exact Hd.
    + (* exponent form *)
      set (e := n - 1).
      set (etext := "e" +:+ (if e <? 0 then "-" else "+") +:+ decimal_of_N (Z.abs_N e) +:+ rest).
      set (ftext := match s' with
                    | EmptyString => etext
                    | _ => "." +:+ s' +:+ etext
                    end).
      replace ((if num_neg x
                then "-" +:+ match s' with
                             | EmptyString => String c EmptyString
                             | String _ _ => String c ("." +:+ s')
                             end +:+ "e" +:+ (if e <? 0 then "-" else "+") +:+ decimal_of_N (Z.abs_N e)
                else match s' with
                     | EmptyString => String c EmptyString
                     | String _ _ => String c ("." +:+ s')
                     end +:+ "e" +:+ (if e <? 0 then "-" else "+") +:+ decimal_of_N (Z.abs_N e)) +:+ rest)
        with (if num_neg x then "-" +:+ String c ftext else String c ftext).
      2:{ unfold ftext, etext. destruct (num_neg x), s', (e <? 0); simpl;
            now rewrite ?append_assoc. }
      rewrite (parse_number_signed _ _ _ Hcd).
      change (String c ftext) with (String c EmptyString +:+ ftext).
      rewrite (parse_magnitude_parts _ (String c EmptyString) s' ftext etext rest e).
      * f_equal. f_equal. change (String c EmptyString +:+ s') with s.
        rewrite <- Hs.
        rewrite <- (append_empty_r (num_digits x)).
        apply (make_number_spec x 0 0); [assumption|].
        fold n. unfold e. simpl String.length. lia.
      * simpl. now rewrite Hcd.
      * reflexivity.
      * unfold ftext, etext. now destruct s'.
      * unfold ftext. destruct s' as [|d s'']; [reflexivity|].
        apply parse_fraction_some; [discriminate| |reflexivity].
        unfold s in Hd. simpl in Hd. apply andb_true_iff in Hd as [_ Hd]. exact Hd.
      * apply parse_exponent_some, Hrest.
Qed.

(** ** String literals *)

Lemma parse_string_body_char (c : ascii) (t : string) :
  parse_string_body (escape_char c +:+ t)
  = '(x, rest) ← parse_string_body t; Some (String c x, rest).
Proof. each_char c; reflexivity. Qed.

Lemma parse_string_body_escape (s rest : string) :
  parse_string_body (escape_string s +:+ String dquote rest) = Some (s, rest).
Proof.
  induction s as [|c s IH].
  - reflexivity.
  - simpl escape_string. rewrite append_assoc, parse_string_body_char, IH.
    reflexivity.
Qed.

Lemma quote_append (s rest : string) :
  quote s +:+ rest = String dquote (escape_string s +:+ String dquote rest).
Proof. unfold quote. simpl. now rewrite append_assoc. Qed.

(** ** First characters *)

Lemma number_to_string_start (x : number) :
  exists c r, number_to_string x = String c r /\
              (is_digit c = true \/ c = "-"%char).
Proof.
  unfold number_to_string. destruct (num_digits x) as [|c s'] eqn:Hs.
  - exists "0"%char, EmptyString. auto.
  - pose proof (num_ok x) as Hok. rewrite Hs in Hok.
    destruct (canonical_digits _ _ _ _ Hok) as (Hd & Hc & Hl).
    assert (Hcd : is_digit c = true) by (simpl in Hd; now apply andb_true_iff in Hd).
    simpl String.length.
    destruct (num_neg x); [eexists _, _; split; [reflexivity | now right]|].
    destruct ((Z.of_nat (S (String.length s')) <=? num_point x) && (num_point x <=? 21));
      [eexists _, _; split; [reflexivity | now left]|].
    destruct ((0 <? num_point x) && (num_point x <=? 21)) eqn:Hb.
    { apply andb_true_iff in Hb as [Hb _]. apply Z.ltb_lt in Hb.
      rewrite take_cons by lia. eexists _, _; split; [reflexivity | now left]. }
    destruct ((-6 <? num_point x) && (num_point x <=? 0));
      [eexists _, _; split; [reflexivity | now left]|].
    destruct s'; eexists _, _; (split; [reflexivity | now left]).
Qed.

Lemma value_start_number (c : ascii) :
  is_digit c = true \/ c = "-"%char -> value_start c = true.
Proof. unfold value_start. intros [-> | ->]; reflexivity. Qed.

Lemma JSON_stringify_start (v : json) :
  exists c r, JSON_stringify v = String c r /\ value_start c = true.
Proof.
  destruct v as [| [] | n | s | l | m]; simpl;
    try (eexists _, _; split; [reflexivity | reflexivity]).
  destruct (number_to_string_start n) as (c & r & -> & H).
  exists c, r. split; [reflexivity | now apply value_start_number].
Qed.

Lemma skip_ws_value_start (c : ascii) (r : string) :
  value_start c = true -> skip_ws (String c r) = String c r.
Proof. intros H. each_char c; vm_compute in H; try discriminate H; reflexivity. Qed.

Lemma number_end_comma (r : string) : number_end (String "," r) = true.
Proof. reflexivity. Qed.
Lemma number_end_bracket (r : string) : number_end (String "]" r) = true.
Proof. reflexivity. Qed.
Lemma number_end_brace (r : string) : number_end (String "}" r) = true.
Proof. reflexivity. Qed.

(** ** How [parse_value] dispatches *)

Lemma parse_value_number (f : nat) (c : ascii) (r : string) :
  is_digit c = true \/ c = "-"%char ->
  parse_value (S f) (String c r)
  = '(n, rest) ← parse_number (String c r); Some (JNum n, rest).
Proof.
  intros [H | ->]; [|reflexivity].
  each_char c; vm_compute in H; try discriminate H; reflexivity.
Qed.

Lemma parse_value_array (f : nat) (c : ascii) (r : string) :
  value_start c = true ->
  parse_value (S f) (String "[" (String c r))
  = '(l, rest) ← parse_elements f (String c r); Some (JArr l, rest).
Proof.
  intros H. each_char c; vm_compute in H; try discriminate H; reflexivity.
Qed.

Lemma parse_value_object (f : nat) (r : string) :
  parse_value (S f) (String "{" (String dquote r))
  = '(m, rest) ← parse_members f [] (String dquote r); Some (JObj m, rest).
Proof. reflexivity. Qed.

Lemma json_ind' (P : json -> Prop) :
  P JNull -> (forall b, P (JBool b)) -> (forall n, P (JNum n)) ->
  (forall s, P (JStr s)) ->
  (forall l, Forall P l -> P (JArr l)) ->
  (forall m, Forall (fun kv => P (snd kv)) m -> P (JObj m)) ->
  forall v, P v.
Proof.
  intros HNull HBool HNum HStr HArr HObj. fix IH 1.
  intros [| b | n | s | l | m].
  - exact HNull.
  - apply HBool.
  - apply HNum.
  - apply HStr.
  - apply HArr. induction l as [|x l IHl]; constructor; [apply IH | exact IHl].
  - apply HObj. induction m as [|[k x] m IHm]; constructor; [apply IH | exact IHm].
Qed.

(** ** Values *)

Lemma parse_value_string (f : nat) (r : string) :
  parse_value (S f) (String dquote r)
  = '(x, rest) ← parse_string_body r; Some (JStr x, rest).
Proof. reflexivity. Qed.

Lemma skip_ws_comma (t : string) : skip_ws (String "," t) = String "," t.
Proof. reflexivity. Qed.
Lemma skip_ws_bracket (t : string) : skip_ws (String "]" t) = String "]" t.
Proof. reflexivity. Qed.
Lemma skip_ws_brace (t : string) : skip_ws (String "}" t) = String "}" t.
Proof. reflexivity. Qed.

Lemma parse_elements_step (f : nat) (s : string) :
  parse_elements (S f) s
  = '(v, r) ← parse_value f s;
    match skip_ws r with
    | String "," r' => '(l, rest) ← parse_elements f r'; Some (v :: l, rest)
    | String "]" rest => Some ([v], rest)
    | _ => None
    end.
Proof. reflexivity. Qed.

Lemma parse_members_step (f : nat) (acc : list (string * json)) (k t : string) :
  parse_members (S f) acc (quote k +:+ String ":" t)
  = '(v, r3) ← parse_value f t;
    match skip_ws r3 with
    | String "," r4 => parse_members f (obj_set k v acc) r4
    | String "}" rest => Some (obj_set k v acc, rest)
    | _ => None
    end.
Proof.
  rewrite quote_append.
  change (parse_members (S f) acc (String dquote ?r))
    with ('(k, r1) ← parse_string_body r;
          match skip_ws r1 with
          | String ":" r2 =>
              '(v, r3) ← parse_value f r2;
              match skip_ws r3 with
              | String "," r4 => parse_members f (obj_set k v acc) r4
              | String "}" rest => Some (obj_set k v acc, rest)
              | _ => None
              end
          | _ => None
          end).
  rewrite parse_string_body_escape. reflexivity.
Qed.

Lemma obj_set_fresh (k : string) (v : json) (acc : list (string * json)) :
  existsb (String.eqb k) (List.map fst acc) = false ->
  obj_set k v acc = (acc ++ [(k, v)])%list.
Proof.
  induction acc as [|[k' v'] acc IH]; simpl; [reflexivity|].
  intros [Hk H]%orb_false_iff. rewrite Hk, (IH H). reflexivity.
Qed.

Lemma distinct_middle (A B : list string) (k : string) :
  distinct (A ++ k :: B) = true -> existsb (String.eqb k) A = false.
Proof.
  induction A as [|a A IH]; simpl; [reflexivity|].
  intros [Ha H]%andb_true_iff. rewrite (IH H), orb_false_r.
  apply negb_true_iff in Ha. rewrite existsb_app in Ha.
  apply orb_false_iff in Ha as [_ Ha]. simpl in Ha.
  apply orb_false_iff in Ha as [Ha _]. now rewrite String.eqb_sym.
Qed.

Lemma prefix_append (a b : string) : String.prefix a (a +:+ b) = true.
Proof.
  induction a as [|c a IH]; simpl; [now destruct b|].
  destruct (ascii_dec c c); [exact IH | congruence].
Qed.

Lemma drop_append (a b : string) : drop (String.length a) (a +:+ b) = b.
Proof. induction a as [|c a IH]; simpl; [now destruct b | exact IH]. Qed.

Lemma expect_append (lit : string) (v : json) (rest : string) :
  expect lit v (lit +:+ rest) = Some (v, rest).
Proof. unfold expect. now rewrite prefix_append, drop_append. Qed.

Lemma join_start (l : list json) :
  l <> [] -> exists c r,
  join (List.map JSON_stringify l) = String c r /\ value_start c = true.
Proof.
  destruct l as [|x l]; [congruence|]. intros _.
  destruct (JSON_stringify_start x) as (c & r & E & H).
  simpl. rewrite E. destruct l; simpl; eauto.
Qed.

Lemma parse_elements_join (l : list json) :
  Forall round_trips l -> forallb wf_json l = true -> l <> [] ->
  forall (f : nat) (rest : string),
  (list_sum (List.map (fun x => S (jsize x)) l) <= f)%nat ->
  parse_elements f (join (List.map JSON_stringify l) +:+ String "]" rest)
  = Some (l, rest).
Proof.
  induction l as [|x l IH]; [congruence|].
  intros HP Hwf _ f rest Hf.
  apply Forall_cons_iff in HP as [Hx HP].
  simpl in Hwf. apply andb_true_iff in Hwf as [Hwx Hwf].
  simpl in Hf. destruct f as [|f]; [lia|].
  rewrite parse_elements_step.
  destruct l as [|y l].
  - simpl join. rewrite (Hx Hwx) by (reflexivity || lia). reflexivity.
  - change (join (List.map JSON_stringify (x :: y :: l)))
      with (JSON_stringify x +:+ "," +:+ join (List.map JSON_stringify (y :: l))).
    rewrite !append_assoc.
    rewrite (Hx Hwx) by (reflexivity || lia).
    change (String "," EmptyString +:+ ?t) with (String "," t).
    cbn [mbind option_bind]. rewrite skip_ws_comma.
    rewrite IH; auto; try discriminate. lia.
Qed.

Lemma parse_members_join (m : list (string * json)) :
  Forall (fun kv => round_trips (snd kv)) m ->
  forallb (fun kv => wf_json (snd kv)) m = true -> m <> [] ->
  forall (acc : list (string * json)) (f : nat) (rest : string),
  distinct (List.map fst (acc ++ m)) = true ->
  (list_sum (List.map (fun kv => S (jsize (snd kv))) m) <= f)%nat ->
  parse_members f acc (join (List.map member m) +:+ String "}" rest)
  = Some ((acc ++ m)%list, rest).
Proof.
  induction m as [|[k x] m IH]; [congruence|].
  intros HP Hwf _ acc f rest Hd Hf.
  apply Forall_cons_iff in HP as [Hx HP]. simpl in Hx.
  simpl in Hwf. apply andb_true_iff in Hwf as [Hwx Hwf].
  simpl in Hf. destruct f as [|f]; [lia|].
  assert (Hk : existsb (String.eqb k) (List.map fst acc) = false).
  { rewrite List.map_app in Hd. simpl in Hd. now apply distinct_middle in Hd. }
  destruct m as [|y m].
  - change (join (List.map member [(k, x)]))
      with (quote k +:+ ":" +:+ JSON_stringify x).
    rewrite !append_assoc.
    change (String ":" EmptyString +:+ ?t) with (String ":" t).
    rewrite parse_members_step.
    rewrite (Hx Hwx) by (reflexivity || lia).
    cbn [mbind option_bind]. rewrite skip_ws_brace.
    now rewrite (obj_set_fresh _ _ _ Hk).
  - change (join (List.map member ((k, x) :: y :: m)))
      with ((quote k +:+ ":" +:+ JSON_stringify x) +:+ "," +:+ join (List.map member (y :: m))).
    rewrite !append_assoc.
    change (String ":" EmptyString +:+ ?t) with (String ":" t).
    rewrite parse_members_step.
    rewrite (Hx Hwx) by (reflexivity || lia).
    change (String "," EmptyString +:+ ?t) with (String "," t).
    cbn [mbind option_bind]. rewrite skip_ws_comma.
    rewrite (obj_set_fresh _ _ _ Hk).
    rewrite IH; auto; try discriminate.
    + now rewrite <- app_assoc.
    + now rewrite <- app_assoc.
    + simpl in *. lia.
Qed.

Lemma members_start (m : list (string * json)) :
  m <> [] -> exists r, join (List.map member m) = String dquote r.
Proof.
  destruct m as [|[k x] m]; [congruence|]. intros _.
  destruct m; simpl; unfold member, quote; simpl; eauto.
Qed.

Theorem parse_value_stringify (v : json) : round_trips v.
Proof.
  induction v as [| b | n | s | l IH | m IH] using json_ind';
    intros Hwf f rest Hf Hrest; simpl in Hf; (destruct f as [|f]; [lia|]).
  - apply (expect_append "null").
  - destruct b; [apply (expect_append "true") | apply (expect_append "false")].
  - destruct (number_to_string_start n) as (c & r & E & H).
    simpl JSON_stringify. rewrite E.
    change (String c r +:+ rest) with (String c (r +:+ rest)).
    rewrite (parse_value_number _ _ _ H).
    change (String c (r +:+ rest)) with (String c r +:+ rest).
    rewrite <- E, (parse_number_to_string _ _ Hrest). reflexivity.
  - simpl JSON_stringify. rewrite quote_append, parse_value_string.
    rewrite parse_string_body_escape. reflexivity.
  - simpl in Hwf.
    change (JSON_stringify (JArr l))
      with ("[" +:+ join (List.map JSON_stringify l) +:+ "]").
    rewrite !append_assoc.
    change ("[" +:+ ?t) with (String "[" t).
    change ("]" +:+ rest) with (String "]" rest).
    destruct l as [|x l]; [reflexivity|].
    destruct (join_start (x :: l)) as (c & r & E & H); [discriminate|].
    rewrite E.
    change (String c r +:+ ?t) with (String c (r +:+ t)).
    rewrite (parse_value_array _ _ _ H).
    change (String c (r +:+ ?t)) with (String c r +:+ t).
    rewrite <- E, parse_elements_join; auto; try discriminate; try lia.
  - simpl in Hwf. apply andb_true_iff in Hwf as [Hd Hwf].
    change (JSON_stringify (JObj m))
      with ("{" +:+ join (List.map member m) +:+ "}").
    rewrite !append_assoc.
    change ("{" +:+ ?t) with (String "{" t).
    change ("}" +:+ rest) with (String "}" rest).
    destruct m as [|kx m]; [reflexivity|].
    destruct (members_start (kx :: m)) as (r & E); [discriminate|].
    rewrite E.
    change (String dquote r +:+ ?t) with (String dquote (r +:+ t)).
    rewrite parse_value_object.
    change (String dquote (r +:+ ?t)) with (String dquote r +:+ t).
    rewrite <- E, parse_members_join; auto; try discriminate; try lia.
Qed.

Lemma length_join_bound {A : Type} (size : A -> nat) (text : A -> string)
  (l : list A) :
  Forall (fun x => (size x <= String.length (text x))%nat) l ->
  (list_sum (List.map (fun x => S (size x)) l)
   <= S (String.length (join (List.map text l))))%nat.
Proof.
  induction l as [|x l IH]; intros H; [simpl; lia|].
  apply Forall_cons_iff in H as [Hx H]. specialize (IH H).
  destruct l as [|y l].
  - simpl in *. lia.
  - change (join (List.map text (x :: y :: l)))
      with (text x +:+ "," +:+ join (List.map text (y :: l))).
    rewrite !length_append. simpl in *. lia.
Qed.

Lemma jsize_le_length (v : json) :
  (jsize v <= String.length (JSON_stringify v))%nat.
Proof.
  induction v as [| b | n | s | l IH | m IH] using json_ind'.
  - simpl. lia.
  - destruct b; simpl; lia.
  - destruct (number_to_string_start n) as (c & r & E & _).
    simpl. rewrite E. simpl. lia.
  - simpl. lia.
  - change (JSON_stringify (JArr l))
      with ("[" +:+ join (List.map JSON_stringify l) +:+ "]").
    rewrite !length_append.
    pose proof (length_join_bound jsize JSON_stringify l IH).
    simpl in *. lia.
  - change (JSON_stringify (JObj m))
      with ("{" +:+ join (List.map member m) +:+ "}").
    rewrite !length_append.
    assert (H : (list_sum (List.map (fun kv => S (jsize (snd kv))) m)
                 <= S (String.length (join (List.map member m))))%nat).
    { apply (length_join_bound (fun kv => jsize (snd kv)) member).
      eapply Forall_impl; [exact IH|]. intros [k x] Hx. simpl in *.
      unfold member. rewrite !length_append. simpl. lia. }
    simpl in *. lia.
Qed.

(** [JSON.parse(JSON.stringify(v))] is [v]. *)
Theorem JSON_parse_stringify (v : json) :
  wf_json v = true -> JSON_parse (JSON_stringify v) = Normal v.
Proof.
  intros Hwf. unfold JSON_parse.
  pose proof (parse_value_stringify v Hwf
                (S (String.length (JSON_stringify v))) EmptyString) as H.
  rewrite append_empty_r in H. rewrite H; [reflexivity | | reflexivity].
  pose proof (jsize_le_length v). lia.
Qed.

Lemma wf_User_json (u : User) : wf_json (User_json u) = true.
Proof. reflexivity. Qed.

Lemma JSON_parse_stringify_User (u : User) :
  JSON_parse (JSON_stringify (User_json u)) = Normal (User_json u).
Proof. apply JSON_parse_stringify, wf_User_json. Qed.


(** ** The recursion depth of [JSON_parse] is enough *)

Lemma parse_scalar_empty : parse_scalar EmptyString = None.
Proof. reflexivity. Qed.

Lemma parse_value_empty (f : nat) : parse_value f EmptyString = None.
Proof. destruct f; reflexivity. Qed.

Lemma parse_elements_empty (f : nat) : parse_elements f EmptyString = None.
Proof.
  destruct f; [reflexivity|].
  rewrite parse_elements_step. now rewrite parse_value_empty.
Qed.

Lemma parse_members_empty (f : nat) (acc : list (string * json)) :
  parse_members f acc EmptyString = None.
Proof. destruct f; reflexivity. Qed.

(** The three parsers, one step, with the tests on characters spelled out. *)
Lemma parse_scalar_step (c : ascii) (r : string) :
  parse_scalar (String c r) =
  if Ascii.eqb c "n" then expect "null" JNull (String c r)
  else if Ascii.eqb c "t" then expect "true" (JBool true) (String c r)
  else if Ascii.eqb c "f" then expect "false" (JBool false) (String c r)
  else if Ascii.eqb c dquote then
    '(x, rest) ← parse_string_body r; Some (JStr x, rest)
  else '(n, rest) ← parse_number (String c r); Some (JNum n, rest).
Proof. each_char c; reflexivity. Qed.

Lemma parse_value_step (f : nat) (s : string) :
  parse_value (S f) s =
  match skip_ws s with
  | EmptyString => None
  | String c r =>
      if Ascii.eqb c "[" then
        match skip_ws r with
        | EmptyString => None
        | String c' r' =>
            if Ascii.eqb c' "]" then Some (JArr [], r')
            else '(l, rest) ← parse_elements f (String c' r'); Some (JArr l, rest)
        end
      else if Ascii.eqb c "{" then
        match skip_ws r with
        | EmptyString => None
        | String c' r' =>
            if Ascii.eqb c' "}" then Some (JObj [], r')
            else '(m, rest) ← parse_members f [] (String c' r'); Some (JObj m, rest)
        end
      else parse_scalar (String c r)
  end.
Proof.
  change (parse_value (S f) s) with
    (match skip_ws s with
      | String "[" r =>
          match skip_ws r with
          | String "]" rest => Some (JArr [], rest)
          | t => '(l, rest) ← parse_elements f t; Some (JArr l, rest)
          end
      | String "{" r =>
          match skip_ws r with
          | String "}" rest => Some (JObj [], rest)
          | t => '(m, rest) ← parse_members f [] t; Some (JObj m, rest)
          end
      | t => parse_scalar t
      end).
  destruct (skip_ws s) as [|c r]; [reflexivity|].
  each_char c; try reflexivity.
  - destruct (skip_ws r) as [|c' r'].
    + cbv beta iota zeta. now rewrite parse_members_empty.
    + each_char c'; reflexivity.
  - destruct (skip_ws r) as [|c' r'].
    + cbv beta iota zeta. now rewrite parse_elements_empty.
    + each_char c'; reflexivity.
Qed.

Lemma parse_elements_unfold (f : nat) (s : string) :
  parse_elements (S f) s =
  '(v, r) ← parse_value f s;
  match skip_ws r with
  | EmptyString => None
  | String c r' =>
      if Ascii.eqb c "," then '(l, rest) ← parse_elements f r'; Some (v :: l, rest)
      else if Ascii.eqb c "]" then Some ([v], r')
      else None
  end.
Proof.
  rewrite parse_elements_step.
  destruct (parse_value f s) as [[v r]|]; [|reflexivity].
  cbn [mbind option_bind].
  destruct (skip_ws r) as [|c r']; [reflexivity|]. each_char c; reflexivity.
Qed.

Lemma parse_members_unfold (f : nat) (acc : list (string * json)) (s : string) :
  parse_members (S f) acc s =
  match skip_ws s with
  | EmptyString => None
  | String c r =>
      if Ascii.eqb c dquote then
        '(k, r1) ← parse_string_body r;
        match skip_ws r1 with
        | EmptyString => None
        | String c1 r2 =>
            if Ascii.eqb c1 ":" then
              '(v, r3) ← parse_value f r2;
              match skip_ws r3 with
              | EmptyString => None
              | String c3 r4 =>
                  if Ascii.eqb c3 "," then parse_members f (obj_set k v acc) r4
                  else if Ascii.eqb c3 "}" then Some (obj_set k v acc, r4)
                  else None
              end
            else None
        end
      else None
  end.
Proof.
  change (parse_members (S f) acc s) with
    (match skip_ws s with
      | String "034" r =>
          '(k, r1) ← parse_string_body r;
          match skip_ws r1 with
          | String ":" r2 =>
              '(v, r3) ← parse_value f r2;
              let acc' := obj_set k v acc in
              match skip_ws r3 with
              | String "," r4 => parse_members f acc' r4
              | String "}" rest => Some (acc', rest)
              | _ => None
              end
          | _ => None
          end
      | _ => None
      end).
  destruct (skip_ws s) as [|c r]; [reflexivity|].
  each_char c; try reflexivity.
  cbn [Ascii.eqb Bool.eqb dquote].
  destruct (parse_string_body r) as [[k r1]|]; [|reflexivity].
  cbn [mbind option_bind].
  destruct (skip_ws r1) as [|c1 r2]; [reflexivity|].
  each_char c1; try reflexivity.
  cbn [Ascii.eqb Bool.eqb].
  destruct (parse_value f r2) as [[v r3]|]; [|reflexivity].
  cbn [mbind option_bind].
  destruct (skip_ws r3) as [|c3 r4]; [reflexivity|].
  each_char c3; reflexivity.
Qed.

(** More depth never changes a result. *)
Lemma fuel_step (f : nat) :
  (forall s r, parse_value f s = Some r -> parse_value (S f) s = Some r)
  /\ (forall s r, parse_elements f s = Some r -> parse_elements (S f) s = Some r)
  /\ (forall acc s r, parse_members f acc s = Some r ->
        parse_members (S f) acc s = Some r).
Proof.
  induction f as [|f (IHv & IHe & IHm)]; [repeat split; intros; discriminate|].
  split; [|split].
  - intros s r. rewrite !parse_value_step.
    destruct (skip_ws s) as [|c t]; [easy|].
    destruct (Ascii.eqb c "[").
    { destruct (skip_ws t) as [|c' t']; [easy|].
      destruct (Ascii.eqb c' "]"); [easy|].
      destruct (parse_elements f _) as [[l rest]|] eqn:E; [|easy].
      now rewrite (IHe _ _ E). }
    destruct (Ascii.eqb c "{"); [|easy].
    destruct (skip_ws t) as [|c' t']; [easy|].
    destruct (Ascii.eqb c' "}"); [easy|].
    destruct (parse_members f _ _) as [[l rest]|] eqn:E; [|easy].
    now rewrite (IHm _ _ _ E).
  - intros s r. rewrite !parse_elements_unfold.
    destruct (parse_value f s) as [[v t]|] eqn:E; [|easy].
    rewrite (IHv _ _ E). cbn [mbind option_bind].
    destruct (skip_ws t) as [|c t']; [easy|].
    destruct (Ascii.eqb c ","); [|easy].
    destruct (parse_elements f t') as [[l rest]|] eqn:E2; [|easy].
    now rewrite (IHe _ _ E2).
  - intros acc s r. rewrite !parse_members_unfold.
    destruct (skip_ws s) as [|c t]; [easy|].
    destruct (Ascii.eqb c dquote); [|easy].
    destruct (parse_string_body t) as [[k r1]|]; [|easy].
    cbn [mbind option_bind].
    destruct (skip_ws r1) as [|c1 r2]; [easy|].
    destruct (Ascii.eqb c1 ":"); [|easy].
    destruct (parse_value f r2) as [[v r3]|] eqn:E; [|easy].
    rewrite (IHv _ _ E). cbn [mbind option_bind].
    destruct (skip_ws r3) as [|c3 r4]; [easy|].
    destruct (Ascii.eqb c3 ","); [|easy].
    apply IHm.
Qed.

Lemma fuel_mono (f f' : nat) :
  (f <= f')%nat ->
  (forall s r, parse_value f s = Some r -> parse_value f' s = Some r)
  /\ (forall s r, parse_elements f s = Some r -> parse_elements f' s = Some r)
  /\ (forall acc s r, parse_members f acc s = Some r ->
        parse_members f' acc s = Some r).
Proof.
  induction 1 as [|f' _ (IHv & IHe & IHm)]; [auto|].
  destruct (fuel_step f') as (Sv & Se & Sm). repeat split; auto.
Qed.

(** *** What each parser consumes *)

Lemma skip_ws_length (s : string) :
  (String.length (skip_ws s) <= String.length s)%nat.
Proof.
  induction s as [|c s IH]; simpl; [lia|]. destruct (is_ws c); simpl; lia.
Qed.

Lemma length_drop (n : nat) (s : string) :
  String.length (drop n s) = (String.length s - n)%nat.
Proof. revert s; induction n as [|n IH]; intros [|c s]; simpl; auto. Qed.

Lemma prefix_length (a s : string) :
  String.prefix a s = true -> (String.length a <= String.length s)%nat.
Proof.
  revert s; induction a as [|c a IH]; intros [|d s]; simpl; try lia; try discriminate.
  destruct (ascii_dec c d); [|discriminate]. intros H%IH. lia.
Qed.

Lemma expect_length (lit : string) (v v' : json) (s rest : string) :
  lit <> EmptyString -> expect lit v s = Some (v', rest) ->
  (String.length rest < String.length s)%nat.
Proof.
  unfold expect. intros Hl. destruct (String.prefix lit s) eqn:Hp; [|discriminate].
  intros [= _ <-]. apply prefix_length in Hp. rewrite length_drop.
  destruct lit; [congruence|]. simpl in *. lia.
Qed.

Lemma parse_string_body_escape_step (e : ascii) (r : string) :
  parse_string_body (String "\" (String e r)) =
  if Ascii.eqb e "u" then
    match r with
    | String h1 (String h2 (String h3 (String h4 r'))) =>
        u ← hex4 h1 h2 h3 h4;
        '(t, rest) ← parse_string_body r';
        Some (code_unit_bytes u +:+ t, rest)
    | _ => None
    end
  else
    ch ← unescape e;
    '(t, rest) ← parse_string_body r;
    Some (String ch t, rest).
Proof. each_char e; reflexivity. Qed.

Lemma parse_string_body_step (c : ascii) (r : string) :
  parse_string_body (String c r) =
  if Ascii.eqb c dquote then Some (EmptyString, r)
  else if Ascii.eqb c "\" then
    match r with
    | EmptyString => None
    | String e r0 => parse_string_body (String "\" (String e r0))
    end
  else if (nat_of_ascii c <? 32)%nat then None
  else '(t, rest) ← parse_string_body r; Some (String c t, rest).
Proof. each_char c; reflexivity. Qed.

Lemma parse_string_body_length (n : nat) :
  forall s x rest, (String.length s <= n)%nat ->
  parse_string_body s = Some (x, rest) ->
  (String.length rest < String.length s)%nat.
Proof.
  induction n as [|n IH]; intros s x rest Hn.
  - destruct s; [discriminate | simpl in Hn; lia].
  - destruct s as [|c r]; [discriminate|].
    rewrite parse_string_body_step. simpl in Hn.
    destruct (Ascii.eqb c dquote); [intros [= _ <-]; simpl; lia|].
    destruct (Ascii.eqb c "\").
    + destruct r as [|e r0]; [discriminate|].
      rewrite parse_string_body_escape_step.
      destruct (Ascii.eqb e "u").
      * destruct r0 as [|h1 [|h2 [|h3 [|h4 r']]]]; try discriminate.
        destruct (hex4 h1 h2 h3 h4); [|discriminate]. cbn [mbind option_bind].
        destruct (parse_string_body r') as [[t rest']|] eqn:E; [|discriminate].
        intros [= _ <-]. apply IH in E; simpl in *; lia.
      * destruct (unescape e); [|discriminate]. cbn [mbind option_bind].
        destruct (parse_string_body r0) as [[t rest']|] eqn:E; [|discriminate].
        intros [= _ <-]. apply IH in E; simpl in *; lia.
    + destruct (nat_of_ascii c <? 32)%nat; [discriminate|].
      destruct (parse_string_body r) as [[t rest']|] eqn:E; [|discriminate].
      intros [= _ <-]. apply IH in E; simpl in *; lia.
Qed.

Lemma span_digits_length (s d t : string) :
  span_digits s = (d, t) ->
  String.length s = (String.length d + String.length t)%nat.
Proof.
  revert d t; induction s as [|c s IH]; intros d t; simpl.
  - intros [= <- <-]. reflexivity.
  - destruct (is_digit c); [|intros [= <- <-]; reflexivity].
    destruct (span_digits s) as [d' t']. intros [= <- <-].
    simpl. now rewrite (IH d' t' eq_refl).
Qed.

Lemma parse_fraction_length (s f rest : string) :
  parse_fraction s = Some (f, rest) ->
  (String.length rest <= String.length s)%nat.
Proof.
  destruct s as [|c r]; [intros [= _ <-]; simpl; lia|].
  assert (H : parse_fraction (String c r) =
              if Ascii.eqb c "." then
                let (f, r') := span_digits r in
                match f with EmptyString => None | _ => Some (f, r') end
              else Some (EmptyString, String c r))
    by (each_char c; reflexivity).
  rewrite H. destruct (Ascii.eqb c "."); [|intros [= _ <-]; lia].
  destruct (span_digits r) as [d t] eqn:E. apply span_digits_length in E.
  destruct d; [discriminate|]. intros [= _ <-]. simpl in *. lia.
Qed.

Lemma parse_exponent_length (s : string) (x : Z) (rest : string) :
  parse_exponent s = Some (x, rest) ->
  (String.length rest <= String.length s)%nat.
Proof.
  destruct s as [|c r]; [intros [= _ <-]; simpl; lia|].
  unfold parse_exponent.
  destruct (Ascii.eqb c "e" || Ascii.eqb c "E"); [|intros [= _ <-]; lia].
  assert (H : exists r1 b,
             (match r with
              | String "-" r' => (true, r')
              | String "+" r' => (false, r')
              | _ => (false, r)
              end) = (b, r1) /\ (String.length r1 <= String.length r)%nat).
  { destruct r as [|c' r']; [eexists _, _; split; [reflexivity | lia]|].
    each_char c'; eexists _, _; (split; [reflexivity | simpl; lia]). }
  destruct H as (r1 & b & -> & Hr1).
  destruct (span_digits r1) as [d t] eqn:E. apply span_digits_length in E.
  destruct (N_of_decimal d); [|discriminate]. intros [= _ <-]. simpl in *. lia.
Qed.

Lemma parse_number_length (s : string) (n : number) (rest : string) :
  parse_number s = Some (n, rest) ->
  (String.length rest < String.length s)%nat.
Proof.
  unfold parse_number.
  assert (H : exists b s1, parse_sign s = (b, s1)
                           /\ (String.length s1 <= String.length s)%nat).
  { destruct s as [|c r]; [eexists _, _; split; [reflexivity | lia]|].
    each_char c; eexists _, _; (split; [reflexivity | simpl; lia]). }
  destruct H as (b & s1 & -> & Hs1). unfold parse_magnitude.
  destruct (span_digits s1) as [i s2] eqn:E. apply span_digits_length in E.
  destruct (int_ok i) eqn:Hi; [|discriminate].
  destruct (parse_fraction s2) as [[f s3]|] eqn:Ef; [|discriminate].
  cbn [mbind option_bind].
  destruct (parse_exponent s3) as [[x s4]|] eqn:Ex; [|discriminate].
  intros [= _ <-]. apply parse_fraction_length in Ef.
  apply parse_exponent_length in Ex.
  destruct i; [discriminate Hi|]. simpl in *. lia.
Qed.

Lemma parse_scalar_length (t : string) (v : json) (rest : string) :
  parse_scalar t = Some (v, rest) ->
  (String.length rest < String.length t)%nat.
Proof.
  destruct t as [|c r]; [discriminate|]. rewrite parse_scalar_step.
  repeat (match goal with
          | |- context [if ?b then _ else _] => destruct b
          end; [apply expect_length; discriminate|]).
  destruct (Ascii.eqb c dquote).
  - destruct (parse_string_body r) as [[x rest']|] eqn:E; [|discriminate].
    intros [= _ <-]. apply (parse_string_body_length _ _ _ _ (le_n _)) in E.
    simpl. lia.
  - destruct (parse_number _) as [[x rest']|] eqn:E; [|discriminate].
    intros [= _ <-]. now apply parse_number_length in E.
Qed.

(** A successful parse needs no more depth than the characters it consumes. *)
Lemma fuel_bound (f : nat) :
  (forall s v rest, parse_value f s = Some (v, rest) ->
     (String.length rest < String.length s)%nat
     /\ parse_value (String.length s - String.length rest) s = Some (v, rest))
  /\ (forall s l rest, parse_elements f s = Some (l, rest) ->
        (String.length rest < String.length s)%nat
        /\ parse_elements (String.length s - String.length rest) s = Some (l, rest))
  /\ (forall acc s m rest, parse_members f acc s = Some (m, rest) ->
        (String.length rest < String.length s)%nat
        /\ parse_members (String.length s - String.length rest) acc s
           = Some (m, rest)).
Proof.
  induction f as [|f (IHv & IHe & IHm)]; [repeat split; intros; discriminate|].
  split; [|split].
  - intros s v rest. rewrite parse_value_step.
    pose proof (skip_ws_length s) as Hs.
    destruct (skip_ws s) as [|c r] eqn:Hws; [discriminate|]. simpl in Hs.
    assert (Hgo : forall k, (String.length rest < String.length s)%nat ->
              parse_value (S k) s = Some (v, rest) ->
              (k <= String.length s - String.length rest - 1)%nat ->
              (String.length rest < String.length s)%nat
              /\ parse_value (String.length s - String.length rest) s
                 = Some (v, rest)).
    { intros k Hlt Hk Hle. split; [exact Hlt|].
      assert (Hle' : (S k <= String.length s - String.length rest)%nat) by lia.
      apply (proj1 (fuel_mono _ _ Hle')), Hk. }
    destruct (Ascii.eqb c "[") eqn:Hc1.
    { pose proof (skip_ws_length r) as Hr.
      destruct (skip_ws r) as [|c' r'] eqn:Hws'; [discriminate|]. simpl in Hr.
      destruct (Ascii.eqb c' "]") eqn:Hc2.
      - intros [= <- <-]. apply (Hgo 0%nat); [lia | | lia].
        now rewrite parse_value_step, Hws, Hc1, Hws', Hc2.
      - destruct (parse_elements f _) as [[l rest']|] eqn:E; [|discriminate].
        intros [= <- <-]. apply IHe in E as [Hlt E]. simpl in Hlt.
        apply (Hgo (String.length (String c' r') - String.length rest')%nat);
          [lia | | simpl; lia].
        now rewrite parse_value_step, Hws, Hc1, Hws', Hc2, E. }
    destruct (Ascii.eqb c "{") eqn:Hc3.
    { pose proof (skip_ws_length r) as Hr.
      destruct (skip_ws r) as [|c' r'] eqn:Hws'; [discriminate|]. simpl in Hr.
      destruct (Ascii.eqb c' "}") eqn:Hc2.
      - intros [= <- <-]. apply (Hgo 0%nat); [lia | | lia].
        now rewrite parse_value_step, Hws, Hc1, Hc3, Hws', Hc2.
      - destruct (parse_members f _ _) as [[l rest']|] eqn:E; [|discriminate].
        intros [= <- <-]. apply IHm in E as [Hlt E]. simpl in Hlt.
        apply (Hgo (String.length (String c' r') - String.length rest')%nat);
          [lia | | simpl; lia].
        now rewrite parse_value_step, Hws, Hc1, Hc3, Hws', Hc2, E. }
    intros H. pose proof (parse_scalar_length _ _ _ H) as Hlt. simpl in Hlt.
    apply (Hgo 0%nat); [lia | | lia].
    now rewrite parse_value_step, Hws, Hc1, Hc3.
  - intros s l rest. rewrite parse_elements_unfold.
    destruct (parse_value f s) as [[v t]|] eqn:E; [|discriminate].
    cbn [mbind option_bind]. apply IHv in E as [Hlt E].
    pose proof (skip_ws_length t) as Ht.
    destruct (skip_ws t) as [|c t'] eqn:Hws; [discriminate|]. simpl in Ht.
    assert (Hgo : forall k, (String.length rest < String.length s)%nat ->
              parse_elements (S k) s = Some (l, rest) ->
              (k <= String.length s - String.length rest - 1)%nat ->
              (String.length rest < String.length s)%nat
              /\ parse_elements (String.length s - String.length rest) s
                 = Some (l, rest)).
    { intros k Hl Hk Hle. split; [exact Hl|].
      assert (Hle' : (S k <= String.length s - String.length rest)%nat) by lia.
      apply (proj1 (proj2 (fuel_mono _ _ Hle'))), Hk. }
    destruct (Ascii.eqb c ",") eqn:Hc1.
    + destruct (parse_elements f t') as [[l' rest']|] eqn:E2; [|discriminate].
      intros [= <- <-]. apply IHe in E2 as [Hlt2 E2].
      apply (Hgo (Nat.max (String.length s - String.length t)
                    (String.length t' - String.length rest'))); [lia | | lia].
      rewrite parse_elements_unfold.
      rewrite (proj1 (fuel_mono _ _ (Nat.le_max_l _ _)) _ _ E).
      cbn [mbind option_bind]. rewrite Hws, Hc1.
      now rewrite (proj1 (proj2 (fuel_mono _ _ (Nat.le_max_r _ _))) _ _ E2).
    + destruct (Ascii.eqb c "]") eqn:Hc2; [|discriminate].
      intros [= <- <-].
      apply (Hgo (String.length s - String.length t)%nat); [lia | | lia].
      rewrite parse_elements_unfold, E. cbn [mbind option_bind].
      now rewrite Hws, Hc1, Hc2.
  - intros acc s m rest. rewrite parse_members_unfold.
    pose proof (skip_ws_length s) as Hs.
    destruct (skip_ws s) as [|c r] eqn:Hws; [discriminate|]. simpl in Hs.
    destruct (Ascii.eqb c dquote) eqn:Hc; [|discriminate].
    destruct (parse_string_body r) as [[k r1]|] eqn:Ek; [|discriminate].
    cbn [mbind option_bind].
    pose proof (parse_string_body_length _ _ _ _ (le_n _) Ek) as Hk.
    pose proof (skip_ws_length r1) as Hr1.
    destruct (skip_ws r1) as [|c1 r2] eqn:Hws1; [discriminate|]. simpl in Hr1.
    destruct (Ascii.eqb c1 ":") eqn:Hc1; [|discriminate].
    destruct (parse_value f r2) as [[v r3]|] eqn:E; [|discriminate].
    cbn [mbind option_bind]. apply IHv in E as [Hlt E].
    pose proof (skip_ws_length r3) as Hr3.
    destruct (skip_ws r3) as [|c3 r4] eqn:Hws3; [discriminate|]. simpl in Hr3.
    assert (Hgo : forall n, (String.length rest < String.length s)%nat ->
              parse_members (S n) acc s = Some (m, rest) ->
              (n <= String.length s - String.length rest - 1)%nat ->
              (String.length rest < String.length s)%nat
              /\ parse_members (String.length s - String.length rest) acc s
                 = Some (m, rest)).
    { intros n Hl Hn Hle. split; [exact Hl|].
      assert (Hle' : (S n <= String.length s - String.length rest)%nat) by lia.
      apply (proj2 (proj2 (fuel_mono _ _ Hle'))), Hn. }
    destruct (Ascii.eqb c3 ",") eqn:Hc3.
    + intros E2. apply IHm in E2 as [Hlt2 E2].
      apply (Hgo (Nat.max (String.length r2 - String.length r3)
                    (String.length r4 - String.length rest))); [lia | | lia].
      rewrite parse_members_unfold, Hws, Hc, Ek. cbn [mbind option_bind].
      rewrite Hws1, Hc1.
      rewrite (proj1 (fuel_mono _ _ (Nat.le_max_l _ _)) _ _ E).
      cbn [mbind option_bind]. rewrite Hws3, Hc3.
      apply (proj2 (proj2 (fuel_mono _ _ (Nat.le_max_r _ _)))), E2.
    + destruct (Ascii.eqb c3 "}") eqn:Hc4; [|discriminate].
      intros [= <- <-].
      apply (Hgo (String.length r2 - String.length r3)%nat); [lia | | lia].
      rewrite parse_members_unfold, Hws, Hc, Ek. cbn [mbind option_bind].
      rewrite Hws1, Hc1, E. cbn [mbind option_bind].
      now rewrite Hws3, Hc3, Hc4.
Qed.

(** The depth [JSON_parse] allows is enough for every text: what parses
    with some depth parses with that one. *)
Theorem parse_value_any_depth (f : nat) (text : string) (v : json) (rest : string) :
  parse_value f text = Some (v, rest) ->
  parse_value (S (String.length text)) text = Some (v, rest).
Proof.
  intros H. apply (proj1 (fuel_bound f)) in H as [Hlt H].
  assert (Hle : (String.length text - String.length rest
                 <= S (String.length text))%nat) by lia.
  exact (proj1 (fuel_mono _ _ Hle) _ _ H).
Qed.

Corollary JSON_parse_throws_only_on_malformed (text : string) (e : Exn) :
  JSON_parse text = Throw e ->
  forall (f : nat) (v : json) (rest : string),
    parse_value f text = Some (v, rest) -> skip_ws rest <> EmptyString.
Proof.
  unfold JSON_parse. intros H f v rest Hp.
  rewrite (parse_value_any_depth _ _ _ _ Hp) in H.
  destruct (skip_ws rest); [discriminate H | discriminate].
Qed.

(** *** The model on familiar inputs *)

Example number_to_string_samples :
  List.map number_to_string
    [number_of_Z 1200; number_of_Z (-7); number_of_Z 0;
     make_number false "45" 0; make_number false "45" (-7);
     make_number true "1" 22]
  = ["1200"; "-7"; "0"; "0.45"; "4.5e-8"; "-1e+21"].
Proof. reflexivity. Qed.

Example JSON_stringify_sample_user :
  JSON_stringify (User_json sample_user)
  = dq ("{'id':1,'name':'A','email':'a@example.com','role':'customer'," +:+
        "'trust_score':0,'created_at':'2024-01-01T00:00:00'}").
Proof. reflexivity. Qed.

Example JSON_parse_samples :
  JSON_parse "{not json" = Throw (SyntaxError "Unexpected token in JSON")
  /\ JSON_parse "undefined" = Throw (SyntaxError "Unexpected token in JSON")
  /\ JSON_parse "01" = Throw (SyntaxError "Unexpected token in JSON")
  /\ JSON_parse "{}" = Normal (JObj [])
  /\ JSON_parse "null" = Normal JNull
  /\ JSON_parse " [1.50e2 , -0, true] "
     = Normal (JArr [JNum (number_of_Z 150); JNum number_zero; JBool true])
  /\ JSON_parse (dq "{'a':1,'b':'x\ty','a':[]}")
     = Normal (JObj [("a", JArr []);
                     ("b", JStr (String "x" (String (ascii_of_nat 9) "y")))]).
Proof. repeat split; reflexivity. Qed.

(** ** Storage *)

Lemma getItem_setItem (st : gmap string string) (k v : string) :
  getItem (setItem st k v) k = Some v.
Proof. apply lookup_insert_eq. Qed.

Lemma getItem_setItem_ne (st : gmap string string) (k k' v : string) :
  k <> k' -> getItem (setItem st k v) k' = getItem st k'.
Proof. intros H. now apply lookup_insert_ne. Qed.

Lemma getItem_removeItem (st : gmap string string) (k : string) :
  getItem (removeItem st k) k = None.
Proof. apply lookup_delete_eq. Qed.

Lemma getItem_removeItem_ne (st : gmap string string) (k k' : string) :
  k <> k' -> getItem (removeItem st k) k' = getItem st k'.
Proof. intros H. now apply lookup_delete_ne. Qed.

Lemma nonempty_true (s : string) : s <> EmptyString -> nonempty s = true.
Proof. destruct s; [congruence | reflexivity]. Qed.

(** ** The request interceptor *)

Lemma request_with_token (w : Window) (config : AxiosRequestConfig) (token : string) :
  getItem (localStorage w) "token" = Some token -> token <> EmptyString ->
  api.interceptors.request (Some w) config
  = set_header "Authorization" ("Bearer " +:+ token) config.
Proof.
  intros H Hne. unfold api.interceptors.request.
  now rewrite H, (nonempty_true _ Hne).
Qed.

Lemma request_without_token (w : Window) (config : AxiosRequestConfig) :
  getItem (localStorage w) "token" = None ->
  api.interceptors.request (Some w) config = config.
Proof. intros H. unfold api.interceptors.request. now rewrite H. Qed.

(** C2. Every outgoing request: with a credential in storage (a token that
    is not the empty string, the test the interceptor makes) the request
    carries [Authorization: Bearer <token>] and is otherwise as the caller
    built it; with no entry in storage the request is sent as it is.  The
    one state left, an entry that holds the empty string, is sent as it is
    too. *)
Theorem request_carries_stored_credential
  (w : Window) (config : AxiosRequestConfig) :
  let sent := api.interceptors.request (Some w) config in
  (forall token : string,
      getItem (localStorage w) "token" = Some token -> token <> EmptyString ->
      headers sent !! "Authorization" = Some ("Bearer " +:+ token)
      /\ (forall k : string, k <> "Authorization" ->
            headers sent !! k = headers config !! k)
      /\ method sent = method config /\ url sent = url config
      /\ data sent = data config)
  /\ (getItem (localStorage w) "token" = None -> sent = config)
  /\ (getItem (localStorage w) "token" = Some EmptyString -> sent = config).
Proof.
  cbv zeta. split; [|split].
  - intros token H Hne. rewrite (request_with_token _ _ _ H Hne).
    simpl. split; [apply lookup_insert_eq|].
    split; [|auto]. intros k Hk. now apply lookup_insert_ne.
  - apply request_without_token.
  - intros H. unfold api.interceptors.request. now rewrite H.
Qed.

Lemma request_carries_stored_credential_witness :
  let w := mkWindow {[ "token" := "tok123" ]} "/" in
  let config := bookings.list in
  headers (api.interceptors.request (Some w) config) !! "Authorization"
  = Some "Bearer tok123"
  /\ api.interceptors.request (Some sample_window) config = config.
Proof.
  split.
  - apply (proj1 (request_carries_stored_credential
                    (mkWindow {[ "token" := "tok123" ]} "/") bookings.list)
             "tok123"); [reflexivity | discriminate].
  - apply (proj1 (proj2 (request_carries_stored_credential
                           sample_window bookings.list))).
    reflexivity.
Defined.

(** C10. An entry under "token" that holds the empty string counts as no
    credential: the request leaves as the caller built it. *)
Theorem empty_token_is_no_credential
  (w : Window) (config : AxiosRequestConfig) :
  getItem (localStorage w) "token" = Some EmptyString ->
  api.interceptors.request (Some w) config = config.
Proof. intros H. unfold api.interceptors.request. now rewrite H. Qed.

Lemma empty_token_is_no_credential_witness :
  api.interceptors.request
    (Some (mkWindow {[ "token" := EmptyString ]} "/")) bookings.list
  = bookings.list
  /\ headers bookings.list !! "Authorization" = None.
Proof.
  split; [|reflexivity].
  apply (empty_token_is_no_credential
           (mkWindow {[ "token" := EmptyString ]} "/") bookings.list).
  reflexivity.
Defined.

(** ** The response interceptor *)

Lemma settle_401 (r : AxiosResponse) :
  status r = 401 ->
  settle (Received r)
  = Rejected (mkError "Request failed with status code 401" (Some r)).
Proof. intros H. unfold settle. now rewrite H. Qed.

(** C1. Every response that comes back through the instance: on status
    401 the two entries are gone from storage, the location is /login and
    the caller gets the rejection that carries the response; on any other
    outcome (a 2xx response, another failure status, no response at all) the
    caller gets what [settle] produced and the browser is as it was. *)
Theorem unauthorized_response_clears_session
  (backend : AxiosRequestConfig -> Transport) (w : Window)
  (config : AxiosRequestConfig) :
  let t := backend (api.interceptors.request (Some w) config) in
  let after := api.call backend (Some w) config in
  snd after = settle t
  /\ match t with
     | Received r =>
         if status r =? 401 then
           exists w' : Window,
             fst after = Some w'
             /\ getItem (localStorage w') "user" = None
             /\ getItem (localStorage w') "token" = None
             /\ location_href w' = "/login"
             /\ snd after
                = Rejected (mkError "Request failed with status code 401" (Some r))
         else fst after = Some w
     | NetworkError _ => fst after = Some w
     end.
Proof.
  unfold api.call.
  destruct (backend (api.interceptors.request (Some w) config)) as [r | msg];
    cbv zeta.
  - destruct (Z.eqb_spec (status r) 401) as [H | H].
    + rewrite (settle_401 r H). simpl. rewrite H. simpl.
      split; [reflexivity|]. eexists. split; [reflexivity|]. simpl.
      split; [apply getItem_removeItem|].
      split; [|auto].
      rewrite getItem_removeItem_ne by discriminate. apply getItem_removeItem.
    + unfold settle. destruct (_ && _); simpl; [auto|].
      apply Z.eqb_neq in H. rewrite H. auto.
  - simpl. auto.
Qed.

(** ** The session hook *)


Lemma effect_without_stored_user (w : Window) (h : useAuth.State) :
  getItem (localStorage w) "user" = None ->
  useAuth.effect (Some w) h = Normal (useAuth.mkState (useAuth.user h) false).
Proof. intros H. unfold useAuth.effect. now rewrite H. Qed.

(** The mount effect never throws. *)
Lemma effect_completes (env : Env) (h : useAuth.State) :
  exists h', useAuth.effect env h = Normal h' /\ useAuth.loading h' = false.
Proof.
  unfold useAuth.effect.
  destruct (match env with Some w => _ | None => None end) as [text|];
    [|eexists; split; reflexivity].
  destruct (nonempty text); [|eexists; split; reflexivity].
  destruct (JSON_parse text); eexists; split; reflexivity.
Qed.


(** C7, as the code has it. A stored value that [JSON.parse] rejects (such
    as [{not json]): the mount effect completes, the user is [null] and
    loading is false. *)
Theorem unparseable_user_is_logged_out
  (w : Window) (text : string) (e : Exn) :
  getItem (localStorage w) "user" = Some text ->
  JSON_parse text = Throw e ->
  useAuth.effect (Some w) useAuth.initial = Normal (useAuth.mkState JNull false).
Proof.
  intros H Hp. unfold useAuth.effect. rewrite H, Hp.
  now destruct (nonempty text).
Qed.

Lemma unparseable_user_is_logged_out_witness :
  useAuth.effect (Some (mkWindow {[ "user" := "{not json" ]} "/")) useAuth.initial
  = Normal (useAuth.mkState JNull false).
Proof.
  apply (unparseable_user_is_logged_out
           (mkWindow {[ "user" := "{not json" ]} "/")
           "{not json" (SyntaxError "Unexpected token in JSON"));
    reflexivity.
Defined.

(** C7 as stated fails: [{}] is JSON but no Identity, and the hook adopts
    it; the pages then take the visitor for logged in. *)
Lemma non_identity_json_is_adopted :
  let w := mkWindow {[ "user" := "{}" ]} "/" in
  parseable_as_Identity "{}" = false
  /\ useAuth.effect (Some w) useAuth.initial
     = Normal (useAuth.mkState (JObj []) false)
  /\ truthy (JObj []) = true
  /\ SearchPage.render (useAuth.mkState (JObj []) false) = Content.
Proof. repeat split; reflexivity. Qed.

(** C8. After [logout], whatever came before: both entries are gone, the
    hook's user is [null] (and a fresh instance finds none either), and the
    request interceptor adds nothing to a request. *)
Theorem logout_clears_session (w : Window) (h : useAuth.State) :
  let after := useAuth.logout (Some w) h in
  exists w' : Window,
    fst after = Some w'
    /\ getItem (localStorage w') "user" = None
    /\ getItem (localStorage w') "token" = None
    /\ useAuth.user (snd after) = JNull
    /\ useAuth.effect (fst after) useAuth.initial
       = Normal (useAuth.mkState JNull false)
    /\ forall config : AxiosRequestConfig,
         api.interceptors.request (fst after) config = config.
Proof.
  cbv zeta. unfold useAuth.logout. cbn [fst snd].
  set (st := removeItem (removeItem (localStorage w) "user") "token").
  assert (Hu : getItem st "user" = None).
  { unfold st. rewrite getItem_removeItem_ne by discriminate.
    apply getItem_removeItem. }
  assert (Ht : getItem st "token" = None) by apply getItem_removeItem.
  exists (mkWindow st (location_href w)). cbn [localStorage].
  repeat split; auto.
  - now apply effect_without_stored_user.
  - intros config. now apply request_without_token.
Qed.

(** ** The invariant of the two entries *)

Lemma paired_both (st : gmap string string) (a b : string) :
  getItem st "user" = Some a -> getItem st "token" = Some b -> paired st.
Proof. intros Ha Hb. unfold paired. rewrite Ha, Hb. split; eauto. Qed.

Lemma paired_neither (st : gmap string string) :
  getItem st "user" = None -> getItem st "token" = None -> paired st.
Proof. intros Ha Hb. unfold paired. rewrite Ha, Hb. tauto. Qed.

Lemma step_keeps_entries_paired (op : Op) (w : Window) (h : useAuth.State) :
  paired (localStorage w) ->
  exists (w' : Window) (h' : useAuth.State),
    step op (Some w, h) = (Some w', h') /\ paired (localStorage w').
Proof.
  intros Hp. destruct op as [| u token | | t]; simpl.
  - destruct (useAuth.effect (Some w) h); eauto.
  - eexists _, _. split; [reflexivity|]. simpl.
    eapply paired_both; [|apply getItem_setItem].
    rewrite getItem_setItem_ne by discriminate. apply getItem_setItem.
  - eexists _, _. split; [reflexivity|]. simpl.
    apply paired_neither; [|apply getItem_removeItem].
    rewrite getItem_removeItem_ne by discriminate. apply getItem_removeItem.
  - destruct (settle t) as [r | err]; simpl; [eauto|].
    destruct (match response err with Some r => _ | None => _ end);
      simpl; [|eauto].
    eexists _, _. split; [reflexivity|]. simpl.
    apply paired_neither; [apply getItem_removeItem|].
    rewrite getItem_removeItem_ne by discriminate. apply getItem_removeItem.
Qed.

(** Any run of operations keeps the invariant. *)
Lemma runs_keep_entries_paired (ops : list Op) (w : Window) (h : useAuth.State) :
  paired (localStorage w) ->
  exists (w' : Window) (h' : useAuth.State),
    fold_left (fun a op => step op a) ops (Some w, h) = (Some w', h')
    /\ paired (localStorage w').
Proof.
  revert w h. induction ops as [|op ops IH]; intros w h Hp; simpl; [eauto|].
  destruct (step_keeps_entries_paired op w h Hp) as (w1 & h1 & E & Hp1).
  simpl in E. rewrite E. now apply IH.
Qed.

(** C5. From a storage that holds both entries or neither, each operation
    of the core (initialisation, commit, clear, a response of any kind
    passing the interceptor) ends in a storage that holds both or neither. *)
Theorem core_operations_keep_entries_paired
  (op : Op) (w : Window) (h : useAuth.State) :
  paired (localStorage w) ->
  exists (w' : Window) (h' : useAuth.State),
    step op (Some w, h) = (Some w', h') /\ paired (localStorage w').
Proof.
  intros Hp. destruct op as [| u token | | t].
  - apply (step_keeps_entries_paired Initialize w h Hp).
  - apply (step_keeps_entries_paired (Commit u token) w h Hp).
  - apply (step_keeps_entries_paired Clear w h Hp).
  - apply (step_keeps_entries_paired (Respond t) w h Hp).
Qed.

Lemma core_operations_keep_entries_paired_witness :
  exists (w' : Window) (h' : useAuth.State),
    step (Commit sample_user "tok123") (Some sample_window, useAuth.initial)
    = (Some w', h') /\ paired (localStorage w').
Proof.
  apply (core_operations_keep_entries_paired
           (Commit sample_user "tok123") sample_window useAuth.initial).
  apply paired_neither; reflexivity.
Defined.

(** ** Several consumers *)




(** ** The worker profile form *)

(** C3 fails on the code. Whatever is selected, typed and chosen, the body
    the submit handler sends has two entries: the service type, and under
    "price" the text of the handler's second argument, which is the file
    or [undefined]; the typed price is not in it, nor is the file. *)
Theorem worker_submit_body
  (serviceType price : string) (idDocument : option File) :
  data (WorkerProfilePage.handleSubmit serviceType price idDocument)
  = FormBody [("service_type", FText serviceType);
              ("price", FText (match idDocument with
                               | Some _ => "[object File]"
                               | None => "undefined"
                               end))].
Proof. destruct idDocument; reflexivity. Qed.

Example worker_submit_loses_price_and_document :
  let sent := WorkerProfilePage.handleSubmit "plumbing" "500" (Some sample_file) in
  method sent = POST /\ url sent = "/api/workers/profile"
  /\ data sent = FormBody [("service_type", FText "plumbing");
                           ("price", FText "[object File]")]
  /\ data sent <> data (workers.createProfile "plumbing"
                          (ANumber (number_of_Z 500)) (AFile sample_file)).
Proof. repeat split; try reflexivity. discriminate. Qed.

(** What the call itself sends when it is given the three values. *)
Lemma createProfile_body (serviceType : string) (price : number) (f : File) :
  data (workers.createProfile serviceType (ANumber price) (AFile f))
  = FormBody [("service_type", FText serviceType);
              ("price", FText (number_to_string price));
              ("id_document", FBlob f)].
Proof. reflexivity. Qed.

(** ** Page guards *)

Lemma truthy_User_json (u : User) : truthy (User_json u) = true.
Proof. reflexivity. Qed.

Lemma role_differs_User (u : User) (r : UserRole) :
  role u <> r -> role_differs (User_json u) (role_name r) = true.
Proof.
  intros H. unfold role_differs.
  change (prop (User_json u) "role") with (Some (JStr (role_name (role u)))).
  destruct (role u), r; try reflexivity; congruence.
Qed.

(** C9. The four protected pages, in every state of the session: while it
    is loading the page renders nothing and navigates nowhere; loaded with
    no user, the page pushes /login and renders nothing; loaded with an
    identity whose role is not the one the page asks for, the page pushes
    /dashboard and renders nothing. *)
Theorem protected_pages_guard (p : Page) (s : useAuth.State) (own : bool) :
  (useAuth.loading s = true ->
     page_render p s own = Nothing /\ page_effect p s = [])
  /\ (useAuth.loading s = false -> truthy (useAuth.user s) = false ->
        page_effect p s = [router_push "/login"]
        /\ page_render p s own = Nothing)
  /\ (forall (u : User) (r : UserRole),
        useAuth.loading s = false -> useAuth.user s = User_json u ->
        required_role p = Some r -> role u <> r ->
        page_effect p s = [router_push "/dashboard"]
        /\ page_render p s own = Nothing).
Proof.
  destruct s as [v l]. cbn [useAuth.loading useAuth.user].
  split; [|split].
  - intros ->. destruct p; split; reflexivity.
  - intros -> Hv.
    destruct p; cbn [page_effect page_render];
      unfold SearchPage.effect, DashboardPage.effect, WorkerProfilePage.effect,
        TutorProfilePage.effect, SearchPage.render, DashboardPage.render,
        WorkerProfilePage.render, TutorProfilePage.render;
      cbn [useAuth.loading useAuth.user]; rewrite Hv; split; reflexivity.
  - intros u r -> -> Hr Hne.
    destruct p; try discriminate Hr; injection Hr as <-;
      pose proof (role_differs_User u _ Hne) as Hd; cbn [role_name] in Hd;
      cbn [page_effect page_render];
      unfold WorkerProfilePage.effect, TutorProfilePage.effect,
        WorkerProfilePage.render, TutorProfilePage.render;
      cbn [useAuth.loading useAuth.user];
      rewrite truthy_User_json, Hd; split; reflexivity.
Qed.

Lemma protected_pages_guard_witness :
  page_effect TutorProfile (useAuth.mkState (User_json sample_user) false)
  = [router_push "/dashboard"]
  /\ page_render TutorProfile (useAuth.mkState (User_json sample_user) false) false
     = Nothing.
Proof.
  apply (proj2 (proj2 (protected_pages_guard TutorProfile
                         (useAuth.mkState (User_json sample_user) false) false))
           sample_user tutor); [reflexivity | reflexivity | reflexivity | discriminate].
Defined.

(** * The rest of the client: properties *)

(** ** Initialisation, run again *)


(** X1. Running the mount effect a second time changes nothing: the state
    the first run ends in is a fixed point of the effect, in every
    environment and from every starting state (React may run a mount effect
    twice). *)
Theorem initialisation_is_idempotent (env : Env) (h h' : useAuth.State) :
  useAuth.effect env h = Normal h' -> useAuth.effect env h' = Normal h'.
Proof.
  unfold useAuth.effect.
  destruct (match env with Some w => _ | None => None end) as [text|].
  - destruct (nonempty text).
    + destruct (JSON_parse text) as [v|e]; simpl; intros [= <-]; reflexivity.
    + simpl. intros [= <-]. reflexivity.
  - simpl. intros [= <-]. reflexivity.
Qed.

Lemma initialisation_is_idempotent_witness :
  let env := fst (useAuth.setUserAndToken (Some sample_window) useAuth.initial
                    sample_user "tok123") in
  useAuth.effect env (useAuth.mkState (User_json sample_user) false)
  = Normal (useAuth.mkState (User_json sample_user) false).
Proof.
  apply (initialisation_is_idempotent _ useAuth.initial). reflexivity.
Defined.


(** ** What the operations leave alone *)

Lemma step_window (op : Op) (w : Window) (h : useAuth.State) :
  exists (w' : Window) (h' : useAuth.State), step op (Some w, h) = (Some w', h').
Proof.
  destruct op as [| u token | | t]; simpl.
  - destruct (useAuth.effect (Some w) h); eauto.
  - eauto.
  - eauto.
  - destruct (settle t) as [r | err]; simpl; [eauto|].
    destruct (match response err with Some r => _ | None => _ end); simpl; eauto.
Qed.

(** X2. None of the four session operations (initialise, commit, clear, a
    response through the instance) reads or writes a storage entry other
    than user and token: every other key holds afterwards what it held
    before. *)
Theorem other_keys_are_never_touched
  (op : Op) (w w' : Window) (h h' : useAuth.State) (k : string) :
  step op (Some w, h) = (Some w', h') ->
  k <> "user" -> k <> "token" ->
  getItem (localStorage w') k = getItem (localStorage w) k.
Proof.
  intros H Hu Ht. destruct op as [| u token | | t]; simpl in H.
  - destruct (useAuth.effect (Some w) h); injection H as <- _; reflexivity.
  - injection H as <- _. simpl.
    rewrite !getItem_setItem_ne by congruence. reflexivity.
  - injection H as <- _. simpl.
    rewrite !getItem_removeItem_ne by congruence. reflexivity.
  - destruct (settle t) as [r | err]; simpl in H; [injection H as <- _; reflexivity|].
    destruct (match response err with Some r => _ | None => _ end);
      simpl in H; injection H as <- _; [|reflexivity].
    simpl. rewrite !getItem_removeItem_ne by congruence. reflexivity.
Qed.

Lemma other_keys_are_never_touched_witness :
  getItem (localStorage (mkWindow (removeItem (removeItem {[ "theme" := "dark" ]}
                                                 "user") "token") "/")) "theme"
  = getItem (localStorage (mkWindow {[ "theme" := "dark" ]} "/")) "theme".
Proof.
  apply (other_keys_are_never_touched Clear
           (mkWindow {[ "theme" := "dark" ]} "/") _ useAuth.initial
           (useAuth.mkState JNull true) "theme");
    [reflexivity | discriminate | discriminate].
Defined.




(** ** How the session operations compose *)

Lemma Window_eq (w w' : Window) :
  localStorage w = localStorage w' -> location_href w = location_href w' -> w = w'.
Proof. destruct w, w'; simpl; congruence. Qed.

(** X4. Committing a second identity and token after a first one leaves
    storage and the hook state exactly as if only the second had been
    committed: nothing of the first survives. *)
Theorem later_commit_replaces_earlier
  (w : Window) (h : useAuth.State) (u1 u2 : User) (t1 t2 : string) :
  let (env1, h1) := useAuth.setUserAndToken (Some w) h u1 t1 in
  useAuth.setUserAndToken env1 h1 u2 t2 = useAuth.setUserAndToken (Some w) h u2 t2.
Proof.
  simpl. f_equal. f_equal. apply Window_eq; [|reflexivity]. simpl.
  unfold setItem. apply map_eq. intros k.
  destruct (decide (k = "token")) as [->|Ht];
    [now rewrite !lookup_insert_eq|].
  rewrite !(lookup_insert_ne _ "token") by congruence.
  destruct (decide (k = "user")) as [->|Hu];
    [now rewrite !lookup_insert_eq|].
  now rewrite !lookup_insert_ne by congruence.
Qed.

(** X5. Logging out after a commit gives the same storage and state as
    logging out without it; and when storage held neither entry before the
    commit, commit followed by logout restores the window exactly. *)
Theorem logout_undoes_commit
  (w : Window) (h : useAuth.State) (u : User) (token : string) :
  let (env1, h1) := useAuth.setUserAndToken (Some w) h u token in
  useAuth.logout env1 h1 = useAuth.logout (Some w) h
  /\ (getItem (localStorage w) "user" = None ->
      getItem (localStorage w) "token" = None ->
      fst (useAuth.logout env1 h1) = Some w).
Proof.
  unfold useAuth.setUserAndToken, useAuth.logout.
  cbn [fst snd localStorage location_href].
  set (j := JSON_stringify (User_json u)).
  assert (E : removeItem (removeItem
                (setItem (setItem (localStorage w) "user" j) "token" token)
                "user") "token"
              = removeItem (removeItem (localStorage w) "user") "token").
  { unfold setItem, removeItem. apply map_eq. intros k.
    destruct (decide (k = "token")) as [->|Ht];
      [now rewrite !lookup_delete_eq|].
    rewrite !(lookup_delete_ne _ "token") by congruence.
    destruct (decide (k = "user")) as [->|Hu];
      [now rewrite !lookup_delete_eq|].
    rewrite !(lookup_delete_ne _ "user") by congruence.
    rewrite !lookup_insert_ne by congruence. reflexivity. }
  rewrite E. split; [reflexivity|].
  intros Hu Ht. f_equal. apply Window_eq; [|reflexivity].
  cbn [localStorage]. unfold removeItem.
  rewrite (delete_id (delete "user" (localStorage w)));
    [apply delete_id, Hu|].
  rewrite lookup_delete_ne by discriminate. exact Ht.
Qed.

Lemma logout_undoes_commit_witness :
  fst (useAuth.logout
         (fst (useAuth.setUserAndToken (Some sample_window) useAuth.initial
                 sample_user "tok123"))
         (snd (useAuth.setUserAndToken (Some sample_window) useAuth.initial
                 sample_user "tok123")))
  = Some sample_window.
Proof.
  exact (proj2 (logout_undoes_commit sample_window useAuth.initial sample_user
                  "tok123") eq_refl eq_refl).
Defined.

Lemma response_401_window (w : Window) (r : AxiosResponse) :
  status r = 401 ->
  fst (api.interceptors.response (Some w) (settle (Received r)))
  = Some (mkWindow (removeItem (removeItem (localStorage w) "token") "user") "/login").
Proof. intros H. rewrite (settle_401 r H). simpl. now rewrite H. Qed.

(** X6. After a call through the instance that the backend answered with
    401, the session is over for good: every later request leaves the
    request interceptor without a credential, and a freshly mounted hook
    initialises to no user. *)
Theorem session_is_over_after_401
  (backend : AxiosRequestConfig -> Transport) (w : Window)
  (config : AxiosRequestConfig) (r : AxiosResponse) :
  backend (api.interceptors.request (Some w) config) = Received r ->
  status r = 401 ->
  let env := fst (api.call backend (Some w) config) in
  (forall next : AxiosRequestConfig, api.interceptors.request env next = next)
  /\ useAuth.effect env useAuth.initial = Normal (useAuth.mkState JNull false).
Proof.
  intros Hb Hs. cbv zeta. unfold api.call. rewrite Hb, (response_401_window w r Hs).
  split.
  - intros next. apply request_without_token. simpl.
    rewrite getItem_removeItem_ne by discriminate. apply getItem_removeItem.
  - apply effect_without_stored_user. simpl. apply getItem_removeItem.
Qed.

Lemma session_is_over_after_401_witness :
  let w := fst (useAuth.setUserAndToken (Some sample_window) useAuth.initial
                  sample_user "tok123") in
  let env := fst (api.call (fun _ => Received (mkResponse 401 JNull))
                    w bookings.list) in
  api.interceptors.request env bookings.list = bookings.list
  /\ useAuth.effect env useAuth.initial = Normal (useAuth.mkState JNull false).
Proof.
  pose proof (session_is_over_after_401
                (fun _ => Received (mkResponse 401 JNull))
                (mkWindow (setItem (setItem ∅ "user"
                                      (JSON_stringify (User_json sample_user)))
                             "token" "tok123") "/")
                bookings.list (mkResponse 401 JNull) eq_refl eq_refl) as [H1 H2].
  split; [exact (H1 bookings.list) | exact H2].
Defined.

(** ** The logout buttons *)

(** X7. The logout buttons of the dashboard and of the search page do the
    same thing: they remove both entries, which is the storage half of the
    hook's logout, and push /login; afterwards requests carry no credential
    and a fresh mount finds no user. *)
Theorem page_logout_clears_storage_only (w : Window) (h : useAuth.State) :
  DashboardPage_logout w = SearchPage_logout w
  /\ Some (fst (DashboardPage_logout w)) = fst (useAuth.logout (Some w) h)
  /\ snd (DashboardPage_logout w) = [router_push "/login"]
  /\ (forall config : AxiosRequestConfig,
        api.interceptors.request (Some (fst (DashboardPage_logout w))) config = config)
  /\ useAuth.effect (Some (fst (DashboardPage_logout w))) useAuth.initial
     = Normal (useAuth.mkState JNull false).
Proof.
  split; [reflexivity|]. split.
  { simpl. f_equal. apply Window_eq; [|reflexivity]. simpl.
    unfold removeItem. apply delete_delete. }
  split; [reflexivity|]. split.
  - intros config. apply request_without_token. simpl.
    rewrite getItem_removeItem_ne by discriminate. apply getItem_removeItem.
  - apply effect_without_stored_user. simpl. apply getItem_removeItem.
Qed.

(** X8. The logout of the home page navigation (the hook's logout followed
    by the assignment of /login to the location) leaves the browser in the
    very state a 401 response leaves it in, with the user cell null. *)
Theorem home_logout_equals_401
  (w : Window) (h : useAuth.State) (r : AxiosResponse) :
  status r = 401 ->
  fst (NavLoggedIn_logout w h)
  = fst (api.interceptors.response (Some w) (settle (Received r)))
  /\ useAuth.user (snd (NavLoggedIn_logout w h)) = JNull.
Proof.
  intros H. rewrite (response_401_window w r H). split; [|reflexivity].
  simpl. f_equal. apply Window_eq; [|reflexivity]. simpl.
  unfold removeItem. apply delete_delete.
Qed.

Lemma home_logout_equals_401_witness :
  fst (NavLoggedIn_logout sample_window useAuth.initial)
  = fst (api.interceptors.response (Some sample_window)
           (settle (Received (mkResponse 401 JNull))))
  /\ useAuth.user (snd (NavLoggedIn_logout sample_window useAuth.initial)) = JNull.
Proof.
  apply (home_logout_equals_401 sample_window useAuth.initial (mkResponse 401 JNull)).
  reflexivity.
Defined.


(** ** Numbers as text *)


Lemma number_eqb_eq (x y : number) : number_eqb x y = true <-> x = y.
Proof.
  unfold number_eqb. split.
  - intros H. apply andb_true_iff in H as [H Hp].
    apply andb_true_iff in H as [Hn Hd].
    apply number_eq; [now apply Bool.eqb_prop | now apply String.eqb_eq
                     | now apply Z.eqb_eq].
  - intros ->. rewrite Bool.eqb_reflx, String.eqb_refl, Z.eqb_refl. reflexivity.
Qed.

(** ** Bookings on the dashboard *)

Lemma offers_sound (user : json) (b : Booking.t) (s : string) :
  In s (DashboardPage_offers user b) ->
  (Booking.status b = "pending" /\ (s = "accepted" \/ s = "cancelled")
   /\ role_differs user "customer" = true
   /\ is_user_id user (Booking.provider_id b) = true)
  \/ (Booking.status b = "accepted" /\ s = "completed"
      /\ (is_user_id user (Booking.customer_id b) = true
          \/ is_user_id user (Booking.provider_id b) = true)).
Proof.
  unfold DashboardPage_offers. intros H. apply in_app_or in H as [H|H].
  - destruct (role_differs user "customer"); [|destruct H].
    destruct (is_user_id user (Booking.provider_id b)); [|destruct H].
    destruct (String.eqb_spec (Booking.status b) "pending") as [E|E]; [|destruct H].
    left. simpl in H. intuition.
  - destruct (String.eqb_spec (Booking.status b) "accepted") as [E|E];
      [|rewrite andb_false_r in H; destruct H].
    destruct (_ || _) eqn:Ho; [|destruct H].
    right. apply orb_true_iff in Ho. simpl in H. intuition.
Qed.

(** X9. Every request a booking's buttons on the dashboard can send is a
    PATCH of that booking, and is either accepted or cancelled for a
    pending booking seen by its provider who is not a customer, or completed
    for an accepted booking seen by its customer or its provider. *)
Theorem dashboard_requests_follow_the_status
  (user : json) (b : Booking.t) (c : AxiosRequestConfig) :
  In c (DashboardPage_patches user b) ->
  exists s : string,
    c = bookings_updateStatus (Booking.id b) s
    /\ ((Booking.status b = "pending" /\ (s = "accepted" \/ s = "cancelled")
         /\ role_differs user "customer" = true
         /\ is_user_id user (Booking.provider_id b) = true)
        \/ (Booking.status b = "accepted" /\ s = "completed"
            /\ (is_user_id user (Booking.customer_id b) = true
                \/ is_user_id user (Booking.provider_id b) = true))).
Proof.
  unfold DashboardPage_patches. intros H. apply in_map_iff in H as (s & <- & H).
  exists s. split; [reflexivity|]. now apply offers_sound.
Qed.

Lemma dashboard_requests_follow_the_status_witness :
  exists s : string,
    bookings_updateStatus (number_of_Z 7) "cancelled"
    = bookings_updateStatus (Booking.id sample_booking) s
    /\ ((Booking.status sample_booking = "pending"
         /\ (s = "accepted" \/ s = "cancelled")
         /\ role_differs (User_json sample_provider) "customer" = true
         /\ is_user_id (User_json sample_provider)
              (Booking.provider_id sample_booking) = true)
        \/ (Booking.status sample_booking = "accepted" /\ s = "completed"
            /\ (is_user_id (User_json sample_provider)
                  (Booking.customer_id sample_booking) = true
                \/ is_user_id (User_json sample_provider)
                     (Booking.provider_id sample_booking) = true))).
Proof.
  apply (dashboard_requests_follow_the_status (User_json sample_provider)
           sample_booking (bookings_updateStatus (number_of_Z 7) "cancelled")).
  simpl. auto.
Defined.

(** X10. A booking whose status is neither pending nor accepted (completed,
    cancelled, or anything else) has no button: no status request can be
    sent for it, whoever looks at it. *)
Theorem finished_bookings_offer_nothing (user : json) (b : Booking.t) :
  Booking.status b <> "pending" -> Booking.status b <> "accepted" ->
  DashboardPage_patches user b = [].
Proof.
  intros Hp Ha. unfold DashboardPage_patches.
  destruct (DashboardPage_offers user b) as [|s l] eqn:E; [reflexivity|].
  destruct (offers_sound user b s) as [[H _]|[H _]];
    [rewrite E; now left | congruence | congruence].
Qed.

Lemma finished_bookings_offer_nothing_witness :
  DashboardPage_patches (User_json sample_provider)
    (Booking.mk (number_of_Z 7) (number_of_Z 1) (number_of_Z 2) "plumbing" None
       (number_of_Z 500) "completed" "2024-01-02T00:00:00") = [].
Proof.
  apply finished_bookings_offer_nothing; discriminate.
Defined.



(** X12. A user whose role is customer is never offered to accept or to
    reject a booking, whatever the booking says, even one that names that
    user as its provider. *)
Theorem customer_cannot_decide (u : User) (b : Booking.t) :
  role u = customer ->
  ~ In "accepted" (DashboardPage_offers (User_json u) b)
  /\ ~ In "cancelled" (DashboardPage_offers (User_json u) b).
Proof.
  intros Hr.
  assert (Hd : role_differs (User_json u) "customer" = false).
  { unfold role_differs.
    change (prop (User_json u) "role") with (Some (JStr (role_name (role u)))).
    now rewrite Hr. }
  split; intros H; apply offers_sound in H as [(_ & _ & H & _)|(_ & H & _)];
    congruence.
Qed.

Lemma customer_cannot_decide_witness :
  ~ In "accepted" (DashboardPage_offers (User_json sample_user) sample_booking)
  /\ ~ In "cancelled" (DashboardPage_offers (User_json sample_user) sample_booking).
Proof. apply customer_cannot_decide. reflexivity. Defined.

(** ** Loading the dashboard *)

Lemma call_not_401 (backend : AxiosRequestConfig -> Transport) (w : Window)
  (config : AxiosRequestConfig) :
  (forall r, backend (api.interceptors.request (Some w) config) = Received r ->
             status r <> 401) ->
  fst (api.call backend (Some w) config) = Some w.
Proof.
  intros H. unfold api.call.
  destruct (backend (api.interceptors.request (Some w) config)) as [r|msg] eqn:E;
    [|reflexivity].
  specialize (H r eq_refl). unfold settle.
  destruct (_ && _); simpl; [reflexivity|].
  apply Z.eqb_neq in H. now rewrite H.
Qed.

(** X13. When the list of bookings cannot be loaded and the answer is not a
    401, the dashboard pushes /login but the stored session is untouched:
    storage and location are as before, and the cells keep their values with
    loading off. *)
Theorem dashboard_load_failure_keeps_session
  (backend : AxiosRequestConfig -> Transport) (w : Window) (user : json)
  (d : DashboardState) (err : AxiosError) :
  snd (api.call backend (Some w) bookings.list) = Rejected err ->
  (forall r, response err = Some r -> status r <> 401) ->
  DashboardPage_load backend (Some w) user d
  = (Some w,
     mkDashboardState (workerProfile d) (tutorProfile d) (bookingsList d) false,
     [router_push "/login"]).
Proof.
  intros Hout Hne. unfold DashboardPage_load.
  destruct (api.call backend (Some w) bookings.list) as [env out] eqn:E.
  simpl in Hout. subst out.
  assert (Henv : env = Some w).
  { change env with (fst (env, Rejected err)). rewrite <- E.
    apply call_not_401. intros r Hr. unfold api.call in E. rewrite Hr in E.
    unfold settle in E. destruct (_ && _); simpl in E; [discriminate|].
    apply Hne. destruct (status r =? 401); injection E as _ <-; reflexivity. }
  now subst env.
Qed.

Lemma dashboard_load_failure_keeps_session_witness :
  let w := mkWindow {[ "token" := "tok123" ]} "/dashboard" in
  DashboardPage_load (fun _ => Received (mkResponse 500 JNull)) (Some w)
    (User_json sample_provider) DashboardPage_initial
  = (Some w, mkDashboardState JNull JNull (JArr []) false, [router_push "/login"]).
Proof.
  apply (dashboard_load_failure_keeps_session
           (fun _ => Received (mkResponse 500 JNull))
           (mkWindow {[ "token" := "tok123" ]} "/dashboard")
           (User_json sample_provider) DashboardPage_initial
           (mkError "Request failed with status code 500"
              (Some (mkResponse 500 JNull)))).
  - reflexivity.
  - intros r [= <-]. discriminate.
Defined.

(** X14. Whatever the backend answers, loading the dashboard ends with the
    spinner off; it pushes at most /login, and then the list of bookings is
    unchanged; the worker profile changes only for a worker and the tutor
    profile only for a tutor. *)
Theorem dashboard_load_always_ends_loading
  (backend : AxiosRequestConfig -> Transport) (env : Env) (user : json)
  (d : DashboardState) :
  let '(env', d', actions) := DashboardPage_load backend env user d in
  dashboard_loading d' = false
  /\ (actions = [] \/ actions = [router_push "/login"])
  /\ (workerProfile d' <> workerProfile d -> role_differs user "worker" = false)
  /\ (tutorProfile d' <> tutorProfile d -> role_differs user "tutor" = false)
  /\ (actions = [router_push "/login"] -> bookingsList d' = bookingsList d).
Proof.
  unfold DashboardPage_load.
  destruct (api.call backend env bookings.list) as [env1 [r|err]].
  - destruct (role_differs user "worker"), (role_differs user "tutor");
      cbn [negb]; unfold fetch_profile;
      repeat match goal with
             | |- context [api.call ?b ?e ?c] => destruct (api.call b e c)
             end;
      cbn [workerProfile tutorProfile bookingsList dashboard_loading];
      repeat split; try reflexivity; try (now left);
      try (intros H; congruence); try (intros H; discriminate H).
  - cbn [workerProfile tutorProfile bookingsList dashboard_loading].
    repeat split; try reflexivity; try (now right); intros H; congruence.
Qed.

(** ** Changing a booking *)

Lemma call_fulfilled (backend : AxiosRequestConfig -> Transport) (env env' : Env)
  (config : AxiosRequestConfig) (r : AxiosResponse) :
  api.call backend env config = (env', Fulfilled r) ->
  env' = env /\ backend (api.interceptors.request env config) = Received r
  /\ (200 <=? status r) && (status r <? 300) = true.
Proof.
  unfold api.call.
  destruct (backend (api.interceptors.request env config)) as [r'|msg]; unfold settle.
  - destruct ((200 <=? status r') && (status r' <? 300)) eqn:Hs.
    + cbn [api.interceptors.response]. intros [= <- <-]. auto.
    + unfold api.interceptors.response. destruct env as [w|]; [|discriminate].
      cbn [response]. destruct (status r' =? 401); discriminate.
  - unfold api.interceptors.response. destruct env as [w|]; discriminate.
Qed.

(** X15. A click on a status button never edits the list locally: afterwards
    the cells are untouched, or the backend accepted the PATCH and the list
    is exactly what its answer to the following list request carried. *)
Theorem status_change_shows_the_server_list
  (backend : AxiosRequestConfig -> Transport) (env env' : Env)
  (d d' : DashboardState) (bookingId : number) (st : string) :
  DashboardPage_updateBookingStatus backend env d bookingId st = (env', d') ->
  d' = d
  \/ (exists p r,
        backend (api.interceptors.request env (bookings_updateStatus bookingId st))
        = Received p /\
        (200 <=? status p) && (status p <? 300) = true /\
        backend (api.interceptors.request env bookings.list) = Received r /\
        (200 <=? status r) && (status r <? 300) = true /\
        env' = env /\
        d' = mkDashboardState (workerProfile d) (tutorProfile d) (response_data r)
               (dashboard_loading d)).
Proof.
  unfold DashboardPage_updateBookingStatus.
  destruct (api.call backend env (bookings_updateStatus bookingId st))
    as [env1 [p|err]] eqn:E1; [|intros [= <- <-]; now left].
  apply call_fulfilled in E1 as (-> & Hp & Hps).
  destruct (api.call backend env bookings.list) as [env2 [r|err]] eqn:E2;
    [|intros [= <- <-]; now left].
  apply call_fulfilled in E2 as (-> & Hr & Hrs).
  intros [= <- <-]. right. exists p, r. repeat split; assumption || reflexivity.
Qed.

Lemma status_change_shows_the_server_list_witness :
  mkDashboardState JNull JNull (JArr [JNull]) true = DashboardPage_initial
  \/ (exists p r,
        (fun _ : AxiosRequestConfig => Received (mkResponse 200 (JArr [JNull])))
          (api.interceptors.request (Some sample_window)
             (bookings_updateStatus (number_of_Z 7) "accepted"))
        = Received p /\
        (200 <=? status p) && (status p <? 300) = true /\
        (fun _ : AxiosRequestConfig => Received (mkResponse 200 (JArr [JNull])))
          (api.interceptors.request (Some sample_window) bookings.list)
        = Received r /\
        (200 <=? status r) && (status r <? 300) = true /\
        Some sample_window = Some sample_window /\
        mkDashboardState JNull JNull (JArr [JNull]) true
        = mkDashboardState (workerProfile DashboardPage_initial)
            (tutorProfile DashboardPage_initial) (response_data r)
            (dashboard_loading DashboardPage_initial)).
Proof.
  apply (status_change_shows_the_server_list
           (fun _ => Received (mkResponse 200 (JArr [JNull])))
           (Some sample_window) (Some sample_window) DashboardPage_initial
           (mkDashboardState JNull JNull (JArr [JNull]) true)
           (number_of_Z 7) "accepted").
  reflexivity.
Defined.

Example parseFloat_samples :
  List.map parseFloat ["500"; " 12.50"; ".5"; "5."; "1e3"; "1e"; "-0"; "abc";
                       ""; "."; "-Infinity"; "007x"; "+2.5e-1"]
  = [Finite (number_of_Z 500); Finite (make_number false "125" 2);
     Finite (make_number false "5" 0); Finite (number_of_Z 5);
     Finite (number_of_Z 1000); Finite (number_of_Z 1); Finite number_zero; NaN;
     NaN; NaN; Infinity true; Finite (number_of_Z 7);
     Finite (make_number false "25" 0)].
Proof. reflexivity. Qed.

Import SearchPageState.











Lemma response_keeps_outcome (env : Env) (p : Settled) :
  snd (api.interceptors.response env p) = p.
Proof.
  destruct p as [r|err]; [reflexivity|]. unfold api.interceptors.response.
  destruct env as [w|]; [|reflexivity].
  now destruct (match response err with Some r => status r =? 401 | None => false end).
Qed.

Lemma fulfilled_keeps_window (env : Env) (r : AxiosResponse) :
  api.interceptors.response env (Fulfilled r) = (env, Fulfilled r).
Proof. reflexivity. Qed.

(** X16. A search with nothing selected in the active tab sends no request
    and shows an empty list, whatever is selected in the other tab and
    whatever the backend would have answered. *)
Theorem search_without_selection_asks_nothing
  (backend : AxiosRequestConfig -> list (string * string) -> Transport)
  (env : Env) (s : SearchPageState.t) :
  (searchType s = SearchHome -> selectedService s = EmptyString) ->
  (searchType s = SearchTutor -> selectedSubject s = EmptyString) ->
  SearchPage_runSearch backend env s = (env, set_results (JArr []) s).
Proof.
  intros Hh Ht. unfold SearchPage_runSearch, SearchPage_query.
  destruct (searchType s).
  - now rewrite Hh.
  - now rewrite Ht.
Qed.

Lemma search_without_selection_asks_nothing_witness :
  SearchPage_runSearch (fun _ _ => NetworkError "down") (Some sample_window)
    (mk SearchHome EmptyString "maths" (JArr [JNull]) false JNull EmptyString false)
  = (Some sample_window,
     set_results (JArr [])
       (mk SearchHome EmptyString "maths" (JArr [JNull]) false JNull EmptyString false)).
Proof.
  apply search_without_selection_asks_nothing; [reflexivity | discriminate].
Defined.

(** X17. The outcome of a search depends on the backend only through its
    answer to one request: GET /api/providers/search with the single
    parameter of the active tab (service_type for home services, subject for
    tutors). *)
Theorem search_asks_for_the_active_tab_only
  (b1 b2 : AxiosRequestConfig -> list (string * string) -> Transport)
  (env : Env) (s : SearchPageState.t) :
  (let q := match searchType s with
            | SearchHome => [("service_type", selectedService s)]
            | SearchTutor => [("subject", selectedSubject s)]
            end in
   b1 (api.interceptors.request env (api.get "/api/providers/search")) q
   = b2 (api.interceptors.request env (api.get "/api/providers/search")) q) ->
  SearchPage_runSearch b1 env s = SearchPage_runSearch b2 env s.
Proof.
  cbv zeta. intros H. unfold SearchPage_runSearch, SearchPage_query.
  destruct (searchType s).
  - destruct (nonempty (selectedService s)); [|reflexivity].
    unfold providers_search, api.call. now rewrite H.
  - destruct (nonempty (selectedSubject s)); [|reflexivity].
    unfold providers_search, api.call. now rewrite H.
Qed.

Lemma search_asks_for_the_active_tab_only_witness :
  SearchPage_runSearch
    (fun _ q => if decide (q = [("service_type", "plumber")])
                then Received (mkResponse 200 (JArr [sample_result]))
                else NetworkError "down")
    (Some sample_window) sample_search
  = SearchPage_runSearch
      (fun _ q => if decide (q = [("service_type", "plumber")])
                  then Received (mkResponse 200 (JArr [sample_result]))
                  else Received (mkResponse 401 JNull))
      (Some sample_window) sample_search.
Proof.
  apply search_asks_for_the_active_tab_only. reflexivity.
Defined.

(** X18. After a search the spinner is off, the selections and the booking
    form are untouched, and the list shown is either empty or exactly the
    data of a 2xx answer to the query; results of an earlier search never
    survive a failed one. *)
Theorem search_shows_the_answer_or_nothing
  (backend : AxiosRequestConfig -> list (string * string) -> Transport)
  (env env' : Env) (s s' : SearchPageState.t) :
  SearchPage_runSearch backend env s = (env', s') ->
  loading s' = false /\
  (searchType s', selectedService s', selectedSubject s')
  = (searchType s, selectedService s, selectedSubject s) /\
  (bookingModal s', bookingPrice s', bookingSubmitting s')
  = (bookingModal s, bookingPrice s, bookingSubmitting s) /\
  (results s' = JArr [] \/
   exists q r,
     SearchPage_query s = Some q /\
     backend (api.interceptors.request env (api.get "/api/providers/search")) q
     = Received r /\
     (200 <=? status r) && (status r <? 300) = true /\
     results s' = response_data r /\ env' = env).
Proof.
  unfold SearchPage_runSearch.
  destruct (SearchPage_query s) as [q|] eqn:Hq.
  - unfold providers_search, api.call.
    destruct (backend _ q) as [r|msg] eqn:Hb; unfold settle.
    + destruct ((200 <=? status r) && (status r <? 300)) eqn:Hs.
      * cbn [api.interceptors.response]. intros [= <- <-].
        repeat split. right. exists q, r. now rewrite Hb.
      * match goal with
        | |- context [api.interceptors.response env ?p] =>
            pose proof (response_keeps_outcome env p) as Hk;
            destruct (api.interceptors.response env p) as [e o]
        end.
        cbn [snd] in Hk. subst o. intros [= <- <-]. repeat split. now left.
    + match goal with
      | |- context [api.interceptors.response env ?p] =>
          pose proof (response_keeps_outcome env p) as Hk;
          destruct (api.interceptors.response env p) as [e o]
      end.
      cbn [snd] in Hk. subst o. intros [= <- <-]. repeat split. now left.
  - intros [= <- <-]. repeat split. now left.
Qed.

Lemma search_shows_the_answer_or_nothing_witness :
  loading (set_results (JArr []) sample_search) = false /\
  (searchType (set_results (JArr []) sample_search),
   selectedService (set_results (JArr []) sample_search),
   selectedSubject (set_results (JArr []) sample_search))
  = (searchType sample_search, selectedService sample_search,
     selectedSubject sample_search) /\
  (bookingModal (set_results (JArr []) sample_search),
   bookingPrice (set_results (JArr []) sample_search),
   bookingSubmitting (set_results (JArr []) sample_search))
  = (bookingModal sample_search, bookingPrice sample_search,
     bookingSubmitting sample_search) /\
  (results (set_results (JArr []) sample_search) = JArr [] \/
   exists q r,
     SearchPage_query sample_search = Some q /\
     (fun (_ : AxiosRequestConfig) (_ : list (string * string)) =>
        NetworkError "down")
       (api.interceptors.request (Some sample_window)
          (api.get "/api/providers/search")) q
     = Received r /\
     (200 <=? status r) && (status r <? 300) = true /\
     results (set_results (JArr []) sample_search) = response_data r /\
     Some sample_window = Some sample_window).
Proof.
  apply (search_shows_the_answer_or_nothing (fun _ _ => NetworkError "down")
           (Some sample_window) (Some sample_window) sample_search
           (set_results (JArr []) sample_search)).
  reflexivity.
Defined.


Lemma bookingRequest_guard (user : json) (s : SearchPageState.t) :
  role_differs user "customer" = true \/ truthy (bookingModal s) = false \/
  isNaN (parseFloat (bookingPrice s)) = true \/
  le_zero (parseFloat (bookingPrice s)) = true ->
  SearchPage_bookingRequest user s = None.
Proof.
  unfold SearchPage_bookingRequest. intros [H|[H|[H|H]]]; rewrite H.
  - now rewrite orb_true_r.
  - reflexivity.
  - now destruct (_ || _).
  - rewrite orb_true_r. now destruct (_ || _).
Qed.


(** X19. Confirming a booking does nothing at all (no request, no change of
    any cell) unless the user is a customer, a provider is chosen, and the
    price text reads as a number above zero; an empty price is one of the
    texts that do not. *)
Theorem booking_needs_customer_provider_and_price
  (backend : AxiosRequestConfig -> list (string * string) -> Transport)
  (env : Env) (user : json) (s : SearchPageState.t) :
  role_differs user "customer" = true \/ truthy (bookingModal s) = false \/
  isNaN (parseFloat (bookingPrice s)) = true \/
  le_zero (parseFloat (bookingPrice s)) = true ->
  SearchPage_handleBook backend env user s = (env, s).
Proof.
  intros H. unfold SearchPage_handleBook.
  now rewrite (bookingRequest_guard user s H).
Qed.

Lemma booking_needs_customer_provider_and_price_witness :
  SearchPage_handleBook
    (fun _ _ => Received (mkResponse 200 JNull)) (Some sample_window)
    (User_json sample_user)
    (mk SearchHome "plumber" EmptyString (JArr [sample_result]) false
       sample_result "-5" false)
  = (Some sample_window,
     mk SearchHome "plumber" EmptyString (JArr [sample_result]) false
       sample_result "-5" false).
Proof.
  apply booking_needs_customer_provider_and_price.
  right; right; right. reflexivity.
Defined.



(** X21. For a provider with no price, a null price or the price 0, the
    booking form opens with a price that cannot be confirmed: confirming
    without typing one does nothing. *)
Theorem provider_without_price_needs_a_typed_price
  (backend : AxiosRequestConfig -> list (string * string) -> Transport)
  (env : Env) (user p : json) (s : SearchPageState.t) :
  prop p "price" = None \/ prop p "price" = Some JNull \/
  prop p "price" = Some (JNum number_zero) ->
  SearchPage_handleBook backend env user (SearchPage_openBooking p s)
  = (env, SearchPage_openBooking p s).
Proof.
  intros H. unfold SearchPage_handleBook. rewrite bookingRequest_guard; [reflexivity|].
  unfold SearchPage_openBooking. cbn [bookingPrice bookingModal].
  destruct H as [->|[->| ->]]; right; right; [left|left|right]; reflexivity.
Qed.

Lemma provider_without_price_needs_a_typed_price_witness :
  SearchPage_handleBook (fun _ _ => Received (mkResponse 200 JNull))
    (Some sample_window) (User_json sample_user)
    (SearchPage_openBooking (JObj [("id", JNum (number_of_Z 7))]) sample_search)
  = (Some sample_window,
     SearchPage_openBooking (JObj [("id", JNum (number_of_Z 7))]) sample_search).
Proof.
  apply provider_without_price_needs_a_typed_price. left. reflexivity.
Defined.

(** X22. When the backend refuses the booking, the form stays as it was
    (same provider, same price text) so that the customer can retry, the
    list and the selections are untouched and the form is no longer
    submitting. *)
Theorem failed_booking_keeps_the_form
  (backend : AxiosRequestConfig -> list (string * string) -> Transport)
  (env env' : Env) (user : json) (s s' : SearchPageState.t) :
  (forall c, exists e, settle (backend c []) = Rejected e) ->
  SearchPage_handleBook backend env user s = (env', s') ->
  (bookingModal s', bookingPrice s') = (bookingModal s, bookingPrice s) /\
  (results s', loading s') = (results s, loading s) /\
  (searchType s', selectedService s', selectedSubject s')
  = (searchType s, selectedService s, selectedSubject s) /\
  (bookingSubmitting s' = false \/ s' = s).
Proof.
  intros Hfail. unfold SearchPage_handleBook.
  destruct (SearchPage_bookingRequest user s) as [c|].
  - unfold api.call.
    destruct (Hfail (api.interceptors.request env c)) as [e ->].
    pose proof (response_keeps_outcome env (Rejected e)) as Hk.
    destruct (api.interceptors.response env (Rejected e)) as [e' o].
    cbn [snd] in Hk. subst o. intros [= <- <-]. repeat split. now left.
  - intros [= <- <-]. repeat split. now right.
Qed.

Lemma failed_booking_keeps_the_form_witness :
  (bookingModal (mk SearchHome "plumber" EmptyString (JArr []) false sample_result "500" false),
   bookingPrice (mk SearchHome "plumber" EmptyString (JArr []) false sample_result "500" false))
  = (bookingModal (mk SearchHome "plumber" EmptyString (JArr []) false sample_result "500" true),
     bookingPrice (mk SearchHome "plumber" EmptyString (JArr []) false sample_result "500" true)) /\
  (results (mk SearchHome "plumber" EmptyString (JArr []) false sample_result "500" false),
   loading (mk SearchHome "plumber" EmptyString (JArr []) false sample_result "500" false))
  = (results (mk SearchHome "plumber" EmptyString (JArr []) false sample_result "500" true),
     loading (mk SearchHome "plumber" EmptyString (JArr []) false sample_result "500" true)) /\
  (searchType (mk SearchHome "plumber" EmptyString (JArr []) false sample_result "500" false),
   selectedService (mk SearchHome "plumber" EmptyString (JArr []) false sample_result "500" false),
   selectedSubject (mk SearchHome "plumber" EmptyString (JArr []) false sample_result "500" false))
  = (searchType (mk SearchHome "plumber" EmptyString (JArr []) false sample_result "500" true),
     selectedService (mk SearchHome "plumber" EmptyString (JArr []) false sample_result "500" true),
     selectedSubject (mk SearchHome "plumber" EmptyString (JArr []) false sample_result "500" true)) /\
  (bookingSubmitting (mk SearchHome "plumber" EmptyString (JArr []) false sample_result "500" false) = false \/
   mk SearchHome "plumber" EmptyString (JArr []) false sample_result "500" false
   = mk SearchHome "plumber" EmptyString (JArr []) false sample_result "500" true).
Proof.
  apply (failed_booking_keeps_the_form (fun _ _ => NetworkError "down")
           (Some sample_window) (Some sample_window) (User_json sample_user)).
  - intros c. eexists. reflexivity.
  - reflexivity.
Defined.



(** On its declared argument types the run-time form is the hook's function. *)
Lemma useAuth_setUserAndToken_typed (env : Env) (h : useAuth.State) (u : User)
  (token : string) :
  useAuth_setUserAndToken env h (Some (User_json u)) (Some (JStr token))
  = useAuth.setUserAndToken env h u token.
Proof. reflexivity. Qed.






(** X26. A login that the backend answers with 401 goes through the 401
    handling of the instance like any other call: both entries are removed
    and the location is set to /login. *)
Theorem wrong_password_reloads_the_login_page
  (backend : AxiosRequestConfig -> Transport) (w : Window) (h : useAuth.State)
  (s : LoginPageState.t) (r : AxiosResponse) :
  backend (api.interceptors.request (Some w)
             (auth_login (LoginPageState.email s) (LoginPageState.password s)))
  = Received r ->
  status r = 401 ->
  exists s',
    LoginPage_handleSubmit backend (Some w) h s
    = (Some (mkWindow (removeItem (removeItem (localStorage w) "token") "user")
               "/login"), h, s').
Proof.
  intros Hb Hs. unfold LoginPage_handleSubmit, api.call. rewrite Hb.
  rewrite (settle_401 r Hs). unfold api.interceptors.response.
  cbn [response]. rewrite Hs. cbn [Z.eqb Pos.eqb]. eexists. reflexivity.
Qed.

Lemma wrong_password_reloads_the_login_page_witness :
  exists s',
    LoginPage_handleSubmit (fun _ => Received (mkResponse 401 JNull))
      (Some sample_window) useAuth.initial sample_login
    = (Some (mkWindow (removeItem (removeItem (localStorage sample_window) "token")
                         "user") "/login"), useAuth.initial, s').
Proof.
  apply (wrong_password_reloads_the_login_page
           (fun _ => Received (mkResponse 401 JNull)) sample_window
           useAuth.initial sample_login (mkResponse 401 JNull));
    reflexivity.
Defined.



Example trim_samples :
  List.map trim ["  my tap is leaking "; "a  b"; "   "; ""; String "009" "x" +:+ String "010" ""]
  = ["my tap is leaking"; "a  b"; ""; ""; "x"].
Proof. reflexivity. Qed.

Lemma trim_start_upto_spaces (s : string) (n : nat) :
  forallb (fun c => let k := nat_of_ascii c in
                    ((9 <=? k) && (k <=? 13) || (k =? 32))%nat)
    (list_ascii_of_string s) = true ->
  (String.length s <= n)%nat -> trim_start_upto n s = EmptyString.
Proof.
  revert n. induction s as [|c r IH]; intros n Hall Hn.
  - now destruct n.
  - cbn [list_ascii_of_string forallb] in Hall.
    apply andb_true_iff in Hall as [Hc Hr].
    destruct n as [|n]; [cbn [String.length] in Hn; lia|].
    cbn [trim_start_upto]. unfold skip_space. cbv zeta in Hc. rewrite Hc.
    apply IH; [exact Hr|]. cbn [String.length] in Hn. lia.
Qed.

Lemma trim_spaces (s : string) :
  forallb (fun c => let k := nat_of_ascii c in
                    ((9 <=? k) && (k <=? 13) || (k =? 32))%nat)
    (list_ascii_of_string s) = true ->
  trim s = EmptyString.
Proof.
  intros H. unfold trim, trimStart.
  now rewrite (trim_start_upto_spaces s (String.length s) H).
Qed.

(** X28. Sending in the assistant page does nothing at all when the input is
    only spaces, tabs and line breaks, or while an answer is pending: no
    request, no message added, the input kept. *)
Theorem blank_or_busy_chat_sends_nothing
  (backend : AxiosRequestConfig -> Transport) (env : Env) (s : ChatPageState.t) :
  forallb (fun c => let k := nat_of_ascii c in
                    ((9 <=? k) && (k <=? 13) || (k =? 32))%nat)
    (list_ascii_of_string (ChatPageState.input s)) = true
  \/ ChatPageState.loading s = true ->
  ChatPage_send backend env s = (env, Some s).
Proof.
  intros [H|H]; unfold ChatPage_send.
  - now rewrite (trim_spaces _ H).
  - rewrite H. now rewrite orb_true_r.
Qed.

Lemma blank_or_busy_chat_sends_nothing_witness :
  ChatPage_send (fun _ => NetworkError "down") (Some sample_window)
    (ChatPageState.mk [] "   " false JNull)
  = (Some sample_window, Some (ChatPageState.mk [] "   " false JNull)).
Proof.
  apply blank_or_busy_chat_sends_nothing. left. reflexivity.
Defined.




